(** * GardienAI backend: the request handlers of [app.py] and their rules

    A shallow embedding of the Flask handlers of [src/app.py]: the values the
    handlers receive are parsed JSON (Python objects with dynamic typing), the
    handlers call an upstream API, may raise, and may touch the filesystem.
    Python values are an inductive type, exceptions are explicit results, and
    the effects of a request are a log of events threaded through a small
    state-and-exception monad. *)

From Stdlib Require Import ZArith String Ascii List Bool Lia.
From Stdlib Require Import Floats.SpecFloat.
From stdpp Require Import base option list strings gmap.
Import ListNotations.

Local Open Scope Z_scope.
Local Open Scope string_scope.
Local Open Scope list_scope.
Local Set Warnings "-register-all".

(** ** Python values obtained from JSON *)

Module Py.

(** What [json.loads] (behind [response.json()] and [request.get_json()])
    builds: [None], [bool], [int], [float], [str], [list], [dict] with string
    keys.  A float is kept as an IEEE value ([nan] and the infinities are
    accepted by Python's parser). *)
Inductive value : Type :=
  | VNone
  | VBool (b : bool)
  | VInt (z : Z)
  | VFloat (f : spec_float)
  | VStr (s : string)
  | VList (l : list value)
  | VDict (d : list (string * value)).

(** The subclasses of [Exception] that the handlers can meet.  The text of an
    exception ([str(e)]) is determined by the exception, which is what the
    error payloads carry. *)
Inductive exn : Type :=
  | KeyError (key : value)
  | IndexError
  | TypeError
  | AttributeError
  | JSONDecodeError (text : string)
  | RequestException (text : string)
  | OSError (text : string).

Inductive res (A : Type) : Type :=
  | Ok (a : A)
  | Raise (e : exn).
Arguments Ok {A} a.
Arguments Raise {A} e.

(** *** Numbers and their comparison

    [bool] is a subclass of [int]; comparing an [int] with a [float] is exact
    in Python, so a number is compared through its exact value [m * 2^e]. *)
Inductive num : Type :=
  | Nan
  | NegInf
  | PosInf
  | Fin (m e : Z).

Definition num_of_float (f : spec_float) : num :=
  match f with
  | S754_zero _ => Fin 0 0
  | S754_infinity false => PosInf
  | S754_infinity true => NegInf
  | S754_nan => Nan
  | S754_finite s m e => Fin (if s then Z.neg m else Z.pos m) e
  end.

Definition as_num (v : value) : option num :=
  match v with
  | VBool b => Some (Fin (Z.b2z b) 0)
  | VInt z => Some (Fin z 0)
  | VFloat f => Some (num_of_float f)
  | _ => None
  end.

(** [None] when the two are unordered (one is [nan]). *)
Definition num_compare (a b : num) : option comparison :=
  match a, b with
  | Nan, _ | _, Nan => None
  | NegInf, NegInf => Some Eq
  | NegInf, _ => Some Lt
  | _, NegInf => Some Gt
  | PosInf, PosInf => Some Eq
  | PosInf, _ => Some Gt
  | _, PosInf => Some Lt
  | Fin m1 e1, Fin m2 e2 =>
      let e := Z.min e1 e2 in
      Some (Z.compare (m1 * 2 ^ (e1 - e)) (m2 * 2 ^ (e2 - e)))
  end.

Definition num_lt (a b : num) : bool :=
  match num_compare a b with Some Lt => true | _ => false end.

Definition num_gt (a b : num) : bool :=
  match num_compare a b with Some Gt => true | _ => false end.

(** [a < b] and [a > b] on Python values: defined between numbers, a
    [TypeError] otherwise (the handlers only compare with [int] literals). *)
Definition lt (a b : value) : res bool :=
  match as_num a, as_num b with
  | Some x, Some y => Ok (num_lt x y)
  | _, _ => Raise TypeError
  end.

Definition gt (a b : value) : res bool :=
  match as_num a, as_num b with
  | Some x, Some y => Ok (num_gt x y)
  | _, _ => Raise TypeError
  end.

(** *** Strings *)

Definition is_upper (c : ascii) : bool :=
  let n := nat_of_ascii c in (65 <=? n)%nat && (n <=? 90)%nat.

Definition lower_char (c : ascii) : ascii :=
  if is_upper c then ascii_of_nat (nat_of_ascii c + 32) else c.

(** [str.lower()] on ASCII text.  A Python [str] is held as its UTF-8 bytes.
    The letters [A] to [Z] are lowered and every other byte is kept, which is
    what [str.lower()] does to a text of ASCII characters.  Python also lowers
    the letters outside ASCII, by the case tables of Unicode; none of those
    mappings produces the word rain, a plant type or a key of the catalog, so
    the tests the handlers make on a lowered text come out the same.  Where a
    handler hands the lowered text back ([plant_selector]), the case mapping
    is a parameter instead ([str_lower_with]). *)
Fixpoint lower (s : string) : string :=
  match s with
  | EmptyString => EmptyString
  | String c s' => String (lower_char c) (lower s')
  end.

(** [needle in hay] for two [str]. *)
Fixpoint contains (needle hay : string) : bool :=
  String.prefix needle hay ||
  match hay with
  | EmptyString => false
  | String _ hay' => contains needle hay'
  end.

(** The first character of a non-empty [str]: its first byte and the UTF-8
    continuation bytes that follow it. *)
Definition is_continuation (c : ascii) : bool :=
  let n := nat_of_ascii c in (128 <=? n)%nat && (n <? 192)%nat.

Fixpoint take_continuation (s : string) : string :=
  match s with
  | String c s' => if is_continuation c then String c (take_continuation s') else EmptyString
  | EmptyString => EmptyString
  end.

(** *** Operations of the object model *)

(** [bool(v)], as [not v] and [if v] use it. *)
Definition truthy (v : value) : bool :=
  match v with
  | VNone => false
  | VBool b => b
  | VInt z => negb (z =? 0)%Z
  | VFloat f => match f with S754_zero _ => false | _ => true end
  | VStr s => negb (String.eqb s EmptyString)
  | VList l => match l with [] => false | _ => true end
  | VDict d => match d with [] => false | _ => true end
  end.

Fixpoint assoc (k : string) (d : list (string * value)) : option value :=
  match d with
  | [] => None
  | (k', v) :: d' => if String.eqb k k' then Some v else assoc k d'
  end.

(** [v[k]] with a [str] key. *)
Definition getitem (v : value) (k : string) : res value :=
  match v with
  | VDict d => match assoc k d with
               | Some x => Ok x
               | None => Raise (KeyError (VStr k))
               end
  | _ => Raise TypeError
  end.

(** [v[0]]: the first item of a [list], the first character of a [str]; a
    [dict] from JSON has no [int] key. *)
Definition getitem_0 (v : value) : res value :=
  match v with
  | VList l => match l with
               | x :: _ => Ok x
               | [] => Raise IndexError
               end
  | VStr s => match s with
              | String c s' => Ok (VStr (String c (take_continuation s')))
              | EmptyString => Raise IndexError
              end
  | VDict _ => Raise (KeyError (VInt 0))
  | _ => Raise TypeError
  end.

(** [v.get(k, default)]: only a [dict] has the method. *)
Definition get (v : value) (k : string) (default : value) : res value :=
  match v with
  | VDict d => Ok (match assoc k d with Some x => x | None => default end)
  | _ => Raise AttributeError
  end.

(** [v.lower()]: only a [str] has the method. *)
Definition str_lower (v : value) : res string :=
  match v with
  | VStr s => Ok (lower s)
  | _ => Raise AttributeError
  end.

(** [v.lower()], with the case mapping of [str.lower()] given as [lower_fn]:
    the Unicode tables behind it are not part of the program. *)
Definition str_lower_with (lower_fn : string → string) (v : value) : res string :=
  match v with
  | VStr s => Ok (lower_fn s)
  | _ => Raise AttributeError
  end.

End Py.

Import Py.

(** ** Requests, effects and responses *)

(** An uploaded file ([werkzeug]'s [FileStorage]): its truth value is the
    truth value of its file name. *)
Record upload : Type := { filename : string; content : string }.

Definition upload_truthy (f : upload) : bool := negb (String.eqb (filename f) EmptyString).

(** The weather URL is an f-string of three parts: the scheme, the city as
    formatted by [str()], and the API key ([None] when not configured). *)
Inductive url : Type :=
  | API_URL
  | WeatherUrl (scheme : string) (q : value) (appid : option string).

Inductive event : Type :=
  | HttpPost (target : url) (authorization : string) (data : string)
  | HttpGet (target : url)
  | MakeDirs (path : string)
  | WriteFile (path text : string)
  | SaveUpload (path : string) (f : upload).

(** What [requests.get] / [requests.post] give back: they raise, or return a
    response whose [.json()] parses the body or raises. *)
Inductive reply : Type :=
  | Fails (e : exn)
  | Response (status_code : Z) (json : res value).

(** Everything outside the program that one request can observe. *)
Record world : Type := {
  getenv : string -> option string;
  http : event -> reply;
  io_error : event -> option exn;
  now : string
}.

Inductive payload : Type :=
  | Message (message : string)
  | Error (error : value)
  | ErrorDetails (error : string) (details : exn)
  | Prediction (prediction : value)
  | WateringAlert (temperature humidity weather : value) (watering_tip : string)
  | DailyCare (plant city temperature humidity weather : value)
              (care_suggestions : list string)
  | Weather (temperature description humidity : value) (tips : list string)
  | JournalEntry (message timestamp : string) (image_saved : bool)
  | PlantSelector (environment preference : string) (recommended_plants : list string).

(** A response: the payload given to [jsonify] and the HTTP status. *)
Definition response : Type := payload * Z.

Definition jsonify (p : payload) : response := (p, 200).

(** *** The handler monad: a log of effects, and exceptions *)

Definition M (A : Type) : Type := list event -> res A * list event.

#[global] Instance M_ret : MRet M := fun A a log => (Ok a, log).

#[global] Instance M_bind : MBind M := fun A B f m log =>
  match m log with
  | (Ok a, log') => f a log'
  | (Raise e, log') => (Raise e, log')
  end.

Definition lift {A : Type} (r : res A) : M A := fun log => (r, log).

(** [try: body except Exception as e: handler e] *)
Definition try_except {A : Type} (body : M A) (handler : exn -> M A) : M A :=
  fun log =>
    match body log with
    | (Ok a, log') => (Ok a, log')
    | (Raise e, log') => handler e log'
    end.

(** Running a handler on a fresh request. *)
Definition run {A : Type} (m : M A) : res A * list event := m [].

(** ** The handlers of [app.py] *)

(** [not v] for the result of [os.getenv] or [request.form.get]: true for
    [None] and for the empty string. *)
Definition not_str (o : option string) : bool :=
  match o with
  | None => true
  | Some s => String.eqb s EmptyString
  end.

(** An f-string formats [None] as the text [None]. *)
Definition format_opt (o : option string) : string := default "None" o.

(** [os.path.join(a, b)] *)
Definition path_join (a b : string) : string :=
  if String.prefix "/" b then b
  else if String.eqb a EmptyString || String.eqb (String.substring (String.length a - 1) 1 a) "/"
       then a +:+ b
       else a +:+ "/" +:+ b.

(** The static catalog of [plant_selector]. *)
Definition plant_database : gmap string (gmap string (list string)) :=
  {[ "low light" :=
       {[ "low maintenance" := ["Snake Plant"; "ZZ Plant"; "Pothos"];
          "air purifying" := ["Peace Lily"; "Spider Plant"] ]};
     "bright light" :=
       {[ "flowering" := ["African Violet"; "Orchid"];
          "low maintenance" := ["Succulent"; "Aloe Vera"] ]};
     "humid" :=
       {[ "tropical" := ["Fern"; "Calathea"];
          "colorful" := ["Croton"; "Bromeliad"] ]} ]}.

(** [plant_database.get(environment, {}).get(preference, [])] *)
Definition catalog_lookup (environment preference : string) : list string :=
  default [] (default ∅ (plant_database !! environment) !! preference).

Section Handlers.

Variable w : world.

(** Module constants, read from the environment at start-up. *)
Definition HEADERS : string := "Bearer " +:+ format_opt (getenv w "HUGGINGFACE_API_TOKEN").
Definition OPENWEATHER_API_KEY : option string := getenv w "OPENWEATHER_API_KEY".

Definition requests_get (target : url) : M (Z * res value) := fun log =>
  let ev := HttpGet target in
  match http w ev with
  | Fails e => (Raise e, log ++ [ev])
  | Response status_code json => (Ok (status_code, json), log ++ [ev])
  end.

Definition requests_post (target : url) (headers data : string) : M (Z * res value) := fun log =>
  let ev := HttpPost target headers data in
  match http w ev with
  | Fails e => (Raise e, log ++ [ev])
  | Response status_code json => (Ok (status_code, json), log ++ [ev])
  end.

(** A filesystem operation: it is attempted, and may raise. *)
Definition fs (ev : event) : M unit := fun log =>
  match io_error w ev with
  | Some e => (Raise e, log ++ [ev])
  | None => (Ok tt, log ++ [ev])
  end.

Definition home : M response :=
  mret (jsonify (Message "GardienAI Backend is Running ✅")).

Definition predict (image_file : option upload) : M response :=
  match image_file with
  | None => mret (jsonify (Error (VStr "No image file provided")))
  | Some f =>
      let image_bytes := content f in
      try_except
        (response ← requests_post API_URL HEADERS image_bytes;
         body ← lift response.2;
         first ← lift (getitem_0 body);
         prediction ← lift (getitem first "label");
         mret (jsonify (Prediction prediction)))
        (fun e => mret (jsonify (ErrorDetails "Prediction failed" e)))
  end.

Definition watering_alert (city_arg : option string) : M response :=
  let city := default "London" city_arg in
  let api_key := getenv w "OPENWEATHER_API_KEY" in
  if not_str api_key then mret (jsonify (Error (VStr "Missing OpenWeather API key.")))
  else
    let weather_url := WeatherUrl "https" (VStr city) api_key in
    try_except
      (response ← requests_get weather_url;
       data ← lift response.2;
       main ← lift (getitem data "main");
       temp ← lift (getitem main "temp");
       main ← lift (getitem data "main");
       humidity ← lift (getitem main "humidity");
       weather_list ← lift (getitem data "weather");
       weather_0 ← lift (getitem_0 weather_list);
       weather ← lift (getitem weather_0 "description");
       dry ← lift (lt humidity (VInt 50));
       dry_and_warm ← (if (dry : bool) then lift (gt temp (VInt 20)) else mret false);
       watering_tip ←
         (if (dry_and_warm : bool) then mret "💧 It's dry and warm. Water your plants today!"
          else
            humid ← lift (gt humidity (VInt 80));
            if (humid : bool) then mret "🌧️ It's very humid. Hold off on watering."
            else
              lowered ← lift (str_lower weather);
              if contains "rain" lowered then mret "🌦️ It's rainy. No need to water today."
              else mret "🪴 Check soil moisture before watering.");
       mret (jsonify (WateringAlert temp humidity weather watering_tip)))
      (fun e => mret (jsonify (ErrorDetails "Failed to get weather data" e))).

Definition daily_care (data : value) : M response :=
  city ← lift (get data "city" VNone);
  plant_type ← lift (get data "plant_type" VNone);
  if negb (truthy city) || negb (truthy plant_type)
  then mret (jsonify (Error (VStr "City and plant type are required.")))
  else
    let weather_api_key := getenv w "OPENWEATHER_API_KEY" in
    let weather_url := WeatherUrl "https" city weather_api_key in
    weather_response ← requests_get weather_url;
    weather_data ← lift weather_response.2;
    if negb (weather_response.1 =? 200)%Z
    then mret (jsonify (Error (VStr "Failed to fetch weather data.")))
    else
      main ← lift (getitem weather_data "main");
      temperature ← lift (getitem main "temp");
      main ← lift (getitem weather_data "main");
      humidity ← lift (getitem main "humidity");
      weather_list ← lift (getitem weather_data "weather");
      weather_0 ← lift (getitem_0 weather_list);
      description ← lift (getitem weather_0 "description");
      lowered ← lift (str_lower plant_type);
      care_suggestions ←
        (if String.eqb lowered "cactus" then
           humid ← lift (gt humidity (VInt 70));
           mret (["🌵 Minimal watering needed. Great for dry conditions."]
                 ++ if (humid : bool) then ["⚠️ Reduce watering. Humidity is high."] else [])
         else
           lowered ← lift (str_lower plant_type);
           if String.eqb lowered "fern" then
             dry ← lift (lt humidity (VInt 50));
             mret (["🌿 Keep soil moist. Foliage loves humidity."]
                   ++ if (dry : bool) then ["💧 Mist your plant to maintain moisture."] else [])
           else
             cold ← lift (lt temperature (VInt 10));
             mret (["🪴 Water when top soil is dry."]
                   ++ if (cold : bool) then ["❄️ Keep your plant away from cold drafts."] else []));
      mret (jsonify (DailyCare plant_type city temperature humidity description
                               care_suggestions)).

Definition get_weather (city_arg : option string) : M response :=
  let city := default "London" city_arg in
  if not_str OPENWEATHER_API_KEY
  then mret (jsonify (Error (VStr "OpenWeather API key is missing in .env")))
  else
    try_except
      (let weather_url := WeatherUrl "http" (VStr city) OPENWEATHER_API_KEY in
       response ← requests_get weather_url;
       data ← lift response.2;
       if negb (response.1 =? 200)%Z
       then
         message ← lift (get data "message" (VStr "Unable to fetch weather"));
         mret (jsonify (Error message))
       else
         main ← lift (getitem data "main");
         temperature ← lift (getitem main "temp");
         weather_list ← lift (getitem data "weather");
         weather_0 ← lift (getitem_0 weather_list);
         weather_desc ← lift (getitem weather_0 "description");
         main ← lift (getitem data "main");
         humidity ← lift (getitem main "humidity");
         hot ← lift (gt temperature (VInt 30));
         tips ←
           (if (hot : bool)
            then mret ["🌞 It's hot! Water your plants early morning or late evening."]
            else
              cold ← lift (lt temperature (VInt 10));
              if (cold : bool) then mret ["❄️ Cold alert! Protect your plants from frost."]
              else mret ["✅ Normal weather. Water as usual."]);
         lowered ← lift (str_lower weather_desc);
         let tips := tips ++ (if contains "rain" lowered
                              then ["🌧️ It's raining. Reduce watering."] else []) in
         humid ← lift (gt humidity (VInt 80));
         let tips := tips ++ (if (humid : bool)
                              then ["💧 High humidity. Improve ventilation to avoid fungal diseases."]
                              else []) in
         mret (jsonify (Weather temperature weather_desc humidity tips)))
      (fun e => mret (jsonify (ErrorDetails "Weather fetch failed" e))).

Definition plant_journal (note : option string) (image_file : option upload) : M response :=
  if not_str note then mret (Error (VStr "Note text is required"), 400)
  else
    let timestamp := now w in
    let entry_folder := "journal_entries/" +:+ timestamp in
    _ ← fs (MakeDirs entry_folder);
    _ ← fs (WriteFile (entry_folder +:+ "/note.txt") (default EmptyString note));
    let has_image := from_option upload_truthy false image_file in
    _ ← match image_file with
        | Some f =>
            if upload_truthy f
            then fs (SaveUpload (path_join entry_folder (filename f)) f)
            else mret tt
        | None => mret tt
        end;
    mret (jsonify (JournalEntry "Journal entry saved successfully" timestamp has_image)).

(** [plant_selector], for any case mapping [lower_fn] behind [.lower()]. *)
Definition plant_selector_with (lower_fn : string → string) (data : value) : M response :=
  environment ← lift (get data "environment" (VStr EmptyString));
  environment ← lift (str_lower_with lower_fn environment);
  preference ← lift (get data "preference" (VStr EmptyString));
  preference ← lift (str_lower_with lower_fn preference);
  let recommended := catalog_lookup environment preference in
  mret (jsonify (PlantSelector environment preference recommended)).

Definition plant_selector (data : value) : M response :=
  plant_selector_with lower data.

End Handlers.

(** ** Vocabulary of the specification *)

(** The tips of the all-rules advisory ([/weather]). *)
Definition heat_tip : string := "🌞 It's hot! Water your plants early morning or late evening.".
Definition frost_tip : string := "❄️ Cold alert! Protect your plants from frost.".
Definition usual_tip : string := "✅ Normal weather. Water as usual.".
Definition reduce_watering_tip : string := "🌧️ It's raining. Reduce watering.".
Definition ventilation_tip : string :=
  "💧 High humidity. Improve ventilation to avoid fungal diseases.".

Definition temperature_tips : list string := [heat_tip; frost_tip; usual_tip].

(** The tips of the first-match rule set ([/watering-alert]). *)
Definition water_today_tip : string := "💧 It's dry and warm. Water your plants today!".
Definition hold_off_tip : string := "🌧️ It's very humid. Hold off on watering.".
Definition no_need_tip : string := "🌦️ It's rainy. No need to water today.".
Definition check_soil_tip : string := "🪴 Check soil moisture before watering.".

(** The tips of the plant-type rules ([/daily-care]). *)
Definition cactus_tip : string := "🌵 Minimal watering needed. Great for dry conditions.".
Definition cactus_humid_tip : string := "⚠️ Reduce watering. Humidity is high.".
Definition fern_tip : string := "🌿 Keep soil moist. Foliage loves humidity.".
Definition fern_mist_tip : string := "💧 Mist your plant to maintain moisture.".
Definition other_tip : string := "🪴 Water when top soil is dry.".
Definition cold_draft_tip : string := "❄️ Keep your plant away from cold drafts.".

(** An [int] literal of the rules, as a number. *)
Definition int (z : Z) : num := Fin z 0.

(** The weather-provider payload [data] holds a reading: the three paths the
    handlers follow ([data["main"]["temp"]], [data["main"]["humidity"]],
    [data["weather"][0]["description"]]) all exist. *)
Definition carries (data temperature humidity description : value) : Prop :=
  ∃ main weather_list weather_0,
    getitem data "main" = Ok main
    ∧ getitem main "temp" = Ok temperature
    ∧ getitem main "humidity" = Ok humidity
    ∧ getitem data "weather" = Ok weather_list
    ∧ getitem_0 weather_list = Ok weather_0
    ∧ getitem weather_0 "description" = Ok description.

(** The payload the weather provider sends for a reading. *)
Definition weather_payload (temperature humidity description : value) : value :=
  VDict [("main", VDict [("temp", temperature); ("humidity", humidity)]);
         ("weather", VList [VDict [("description", description)]])].

(** The description has the word rain in it, in any letter case. *)
Definition says_rain (word : string) : Prop :=
  ∃ c1 c2 c3 c4 : ascii,
    word = String c1 (String c2 (String c3 (String c4 EmptyString)))
    ∧ (c1 = "r" ∨ c1 = "R")%char ∧ (c2 = "a" ∨ c2 = "A")%char
    ∧ (c3 = "i" ∨ c3 = "I")%char ∧ (c4 = "n" ∨ c4 = "N")%char.

Definition mentions_rain (description : string) : Prop :=
  ∃ before word after, description = before +:+ word +:+ after ∧ says_rain word.

(** The rule sets, written after the specification's words. *)
Definition temperature_tip (t : num) : string :=
  if num_gt t (int 30) then heat_tip
  else if num_lt t (int 10) then frost_tip
  else usual_tip.

Definition all_rules_tips (t h : num) (description : string) : list string :=
  [temperature_tip t]
  ++ (if contains "rain" (lower description) then [reduce_watering_tip] else [])
  ++ (if num_gt h (int 80) then [ventilation_tip] else []).

Definition first_match_tip (t h : num) (description : string) : string :=
  if num_lt h (int 50) && num_gt t (int 20) then water_today_tip
  else if num_gt h (int 80) then hold_off_tip
  else if contains "rain" (lower description) then no_need_tip
  else check_soil_tip.

Definition plant_rules (plant_type : string) (t h : num) : list string :=
  if String.eqb (lower plant_type) "cactus"
  then cactus_tip :: (if num_gt h (int 70) then [cactus_humid_tip] else [])
  else if String.eqb (lower plant_type) "fern"
  then fern_tip :: (if num_lt h (int 50) then [fern_mist_tip] else [])
  else other_tip :: (if num_lt t (int 10) then [cold_draft_tip] else []).

(** A structured error payload. *)
Definition is_error (p : payload) : bool :=
  match p with
  | Error _ | ErrorDetails _ _ => true
  | _ => false
  end.

(** How many of the tips are temperature tips. *)
Definition count_temperature_tips (tips : list string) : nat :=
  length (filter (λ s, s ∈ temperature_tips) tips).

(** A world in which every variable of the environment has the value [key]
    and every call upstream gets the answer [answer]. *)
Definition answering (key : option string) (answer : reply) : world :=
  {| getenv := λ _, key;
     http := λ _, answer;
     io_error := λ _, None;
     now := "20240101-120000" |}.

(** The body of a [/daily-care] request. *)
Definition care_request (city plant_type : value) : value :=
  VDict [("city", city); ("plant_type", plant_type)].

(** The body of a [/plant-selector] request. *)
Definition selector_request (environment preference : string) : value :=
  VDict [("environment", VStr environment); ("preference", VStr preference)].

(** A field of a request body: a string when present, and as if empty when
    absent. *)
Definition supplied (fields : list (string * value)) (name text : string) : Prop :=
  assoc name fields = Some (VStr text)
  ∨ (assoc name fields = None ∧ text = EmptyString).

(** Unfolds the monad down to matches on the results of the primitive
    operations. *)
Ltac unfold_monad :=
  unfold run, try_except, mbind, M_bind, mret, M_ret, lift, requests_get,
    requests_post, fs, jsonify, gt, lt, str_lower, str_lower_with.

(** *** Postconditions of a handler *)

(** Whenever [m] returns, what it returns satisfies [P]. *)
Definition returns {A : Type} (P : A → Prop) (m : M A) : Prop :=
  ∀ log a log', m log = (Ok a, log') → P a.

(** [m] has no effect: it leaves the log as it found it. *)
Definition silent {A : Type} (m : M A) : Prop :=
  ∀ log, (m log).2 = log.

(** The tips the first-match rule set can give. *)
Definition watering_tips : list string :=
  [water_today_tip; hold_off_tip; no_need_tip; check_soil_tip].

(** The pairs of keys under which the catalog lists plants. *)
Definition listed_pairs : list (string * string) :=
  [("low light", "low maintenance"); ("low light", "air purifying");
   ("bright light", "flowering"); ("bright light", "low maintenance");
   ("humid", "tropical"); ("humid", "colorful")].

(** ** Facts about strings *)

Section Strings.

Example lower_low_light : lower "LOW Light 2" = "low light 2".
Proof. reflexivity. Qed.

Example contains_rain :
  contains "rain" (lower "Light RAIN") = true ∧ contains "rain" (lower "r a i n") = false.
Proof. split; reflexivity. Qed.

Lemma lower_app (a b : string) : lower (a +:+ b) = lower a +:+ lower b.
Proof.
  induction a as [|c a IH]; simpl; [reflexivity | now rewrite IH].
Qed.

Lemma prefix_app (needle rest : string) : String.prefix needle (needle +:+ rest) = true.
Proof.
  induction needle as [|c needle IH]; simpl.
  - now destruct rest.
  - destruct (ascii_dec c c) as [_|Hc]; [exact IH | now destruct Hc].
Qed.

Lemma contains_prefix (needle hay : string) :
  String.prefix needle hay = true → contains needle hay = true.
Proof.
  intros H. destruct hay; unfold contains; fold contains; now rewrite H.
Qed.

Lemma contains_here (needle rest : string) : contains needle (needle +:+ rest) = true.
Proof. apply contains_prefix, prefix_app. Qed.

Lemma contains_app (needle before rest : string) :
  contains needle rest = true → contains needle (before +:+ rest) = true.
Proof.
  intros H. induction before as [|c before IH]; simpl; [exact H |].
  rewrite IH. apply orb_true_r.
Qed.

Lemma says_rain_lower (word : string) : says_rain word → lower word = "rain".
Proof.
  intros (c1 & c2 & c3 & c4 & -> & [-> | ->] & [-> | ->] & [-> | ->] & [-> | ->]);
    reflexivity.
Qed.

Lemma mentions_rain_contains (description : string) :
  mentions_rain description → contains "rain" (lower description) = true.
Proof.
  intros (before & word & after & -> & Hword).
  rewrite !lower_app, (says_rain_lower _ Hword).
  apply contains_app, contains_here.
Qed.

End Strings.

(** ** Running the handlers *)

Lemma not_str_some (key : string) : key ≠ EmptyString → not_str (Some key) = false.
Proof.
  intros H. simpl. destruct (String.eqb_spec key EmptyString); [contradiction | reflexivity].
Qed.

Lemma carries_weather_payload (t h d : value) : carries (weather_payload t h d) t h d.
Proof. do 3 eexists. repeat split; reflexivity. Qed.

Section Runs.

Variable w : world.
Variables (key : string) (data temperature humidity : value) (description : string).
Variables t h : num.
Hypothesis key_set : getenv w "OPENWEATHER_API_KEY" = Some key.
Hypothesis key_not_empty : key ≠ EmptyString.
Hypothesis reading : carries data temperature humidity (VStr description).
Hypothesis temperature_number : as_num temperature = Some t.
Hypothesis humidity_number : as_num humidity = Some h.

(** [/weather]: with the key configured and a 200 answer that holds a
    reading, the handler answers with the tips of all the rules that match,
    after one call upstream. *)
Lemma get_weather_ok (city_arg : option string) :
  let target := WeatherUrl "http" (VStr (default "London" city_arg)) (Some key) in
  http w (HttpGet target) = Response 200 (Ok data) →
  run (get_weather w city_arg)
  = (Ok (Weather temperature (VStr description) humidity
           (all_rules_tips t h description), 200),
     [HttpGet target]).
Proof.
  intros target Hhttp.
  destruct reading as (main & wl & w0 & Hm & Ht & Hh & Hw & H0 & Hd).
  unfold get_weather, OPENWEATHER_API_KEY. rewrite key_set, (not_str_some key key_not_empty).
  unfold_monad. fold target. rewrite Hhttp. simpl.
  rewrite Hm, Ht, Hw, H0, Hd, Hh, temperature_number, humidity_number. simpl.
  unfold all_rules_tips, temperature_tip, int.
  destruct (num_gt t (Fin 30 0)); [| destruct (num_lt t (Fin 10 0))]; reflexivity.
Qed.

(** [/watering-alert]: with the key configured and an answer that holds a
    reading (the status is not looked at), the handler answers with the tip of
    the first rule that matches. *)
Lemma watering_alert_ok (city_arg : option string) (status_code : Z) :
  let target := WeatherUrl "https" (VStr (default "London" city_arg)) (Some key) in
  http w (HttpGet target) = Response status_code (Ok data) →
  run (watering_alert w city_arg)
  = (Ok (WateringAlert temperature humidity (VStr description)
           (first_match_tip t h description), 200),
     [HttpGet target]).
Proof.
  intros target Hhttp.
  destruct reading as (main & wl & w0 & Hm & Ht & Hh & Hw & H0 & Hd).
  unfold watering_alert. rewrite key_set, (not_str_some key key_not_empty).
  unfold_monad. fold target. rewrite Hhttp. simpl.
  rewrite Hm, Ht, Hh, Hw, H0, Hd, humidity_number. simpl.
  unfold first_match_tip, int.
  destruct (num_lt h (Fin 50 0)); simpl; rewrite ?temperature_number;
    [destruct (num_gt t (Fin 20 0)); simpl; [reflexivity |] |];
    (destruct (num_gt h (Fin 80 0)); simpl; [reflexivity |]);
    destruct (contains "rain" (lower description)); reflexivity.
Qed.

End Runs.

(** [/daily-care]: with a body that names a city and a plant, and a 200
    answer that holds a reading, the handler answers with the suggestions of
    the plant's rules, after one call upstream. *)
Lemma daily_care_ok (w : world) (body city data temperature humidity description : value)
    (plant_type : string) (t h : num) :
  let target := WeatherUrl "https" city (getenv w "OPENWEATHER_API_KEY") in
  get body "city" VNone = Ok city →
  get body "plant_type" VNone = Ok (VStr plant_type) →
  truthy city = true →
  plant_type ≠ EmptyString →
  http w (HttpGet target) = Response 200 (Ok data) →
  carries data temperature humidity description →
  as_num temperature = Some t →
  as_num humidity = Some h →
  run (daily_care w body)
  = (Ok (DailyCare (VStr plant_type) city temperature humidity description
           (plant_rules plant_type t h), 200),
     [HttpGet target]).
Proof.
  intros target Hcity Hplant Htruthy Hne Hhttp
    (main & wl & w0 & Hm & Ht & Hh & Hw & H0 & Hd) Htn Hhn.
  unfold daily_care. unfold_monad.
  rewrite Hcity, Hplant, Htruthy. simpl.
  destruct (String.eqb_spec plant_type EmptyString) as [|_]; [contradiction |]. simpl.
  fold target. rewrite Hhttp. simpl.
  rewrite Hm, Ht, Hh, Hw, H0, Hd. simpl.
  unfold plant_rules, int.
  destruct (String.eqb (lower plant_type) "cactus").
  - rewrite Hhn. now destruct (num_gt h (Fin 70 0)).
  - destruct (String.eqb (lower plant_type) "fern").
    + rewrite Hhn. now destruct (num_lt h (Fin 50 0)).
    + rewrite Htn. now destruct (num_lt t (Fin 10 0)).
Qed.

(** ** Facts about the comparison of numbers *)

Section Numbers.

Example compare_readings :
  gt (VFloat (S754_finite false 61 (-1))) (VInt 30) = Ok true
  ∧ lt (VFloat (S754_finite true 5 (-1))) (VInt 10) = Ok true
  ∧ gt (VFloat S754_nan) (VInt 30) = Ok false
  ∧ lt (VFloat S754_nan) (VInt 10) = Ok false
  ∧ gt (VBool true) (VInt 0) = Ok true
  ∧ gt (VStr "35") (VInt 30) = Raise TypeError.
Proof. repeat split. Qed.

Lemma num_compare_int (a b : Z) : num_compare (int a) (int b) = Some (a ?= b)%Z.
Proof.
  unfold int, num_compare. cbv zeta. rewrite Z.min_id, Z.sub_diag, !Z.mul_1_r. reflexivity.
Qed.

Lemma num_gt_int (a b : Z) : num_gt (int a) (int b) = (b <? a)%Z.
Proof.
  unfold num_gt. rewrite num_compare_int, Z.ltb_antisym, Z.leb_compare.
  now destruct (a ?= b)%Z.
Qed.

Lemma num_lt_int (a b : Z) : num_lt (int a) (int b) = (a <? b)%Z.
Proof.
  unfold num_lt. rewrite num_compare_int. unfold Z.ltb. now destruct (a ?= b)%Z.
Qed.

(** A float [m * 2^e] with [0 <= e] is the integer [m * 2^e]. *)
Lemma num_compare_integral (m e k : Z) :
  (0 ≤ e)%Z → num_compare (Fin m e) (int k) = Some (m * 2 ^ e ?= k)%Z.
Proof.
  intros He. unfold int, num_compare. cbv zeta.
  rewrite Z.min_r by lia. rewrite Z.sub_0_r, Z.mul_1_r. reflexivity.
Qed.

(** A float [m / 2^n] is compared with [k] as [m] is with [k * 2^n]. *)
Lemma num_compare_fraction (m e k : Z) :
  (e < 0)%Z → num_compare (Fin m e) (int k) = Some (m ?= k * 2 ^ (- e))%Z.
Proof.
  intros He. unfold int, num_compare. cbv zeta.
  rewrite Z.min_l by lia. rewrite Z.sub_diag, Z.mul_1_r, Z.sub_0_l. reflexivity.
Qed.

(** [nan] is neither above nor below anything. *)
Lemma nan_unordered (b : num) : num_gt Nan b = false ∧ num_lt Nan b = false.
Proof. split; reflexivity. Qed.

End Numbers.

(** ** Facts about the rule sets *)

(** A number is not both above 30 and below 10. *)
Lemma hot_not_cold (t : num) : num_gt t (int 30) = true → num_lt t (int 10) = false.
Proof.
  unfold num_gt, num_lt, int. destruct t as [| | |m e]; try (simpl; easy).
  unfold num_compare. cbv zeta.
  set (p := 2 ^ (0 - Z.min e 0)). set (x := m * 2 ^ (e - Z.min e 0)).
  assert (0 < p) by (apply Z.pow_pos_nonneg; lia).
  clearbody p x.
  destruct (Z.compare_spec x (30 * p)); try discriminate. intros _.
  destruct (Z.compare_spec x (10 * p)); try reflexivity. lia.
Qed.

Lemma all_rules_one_temperature_tip (t h : num) (description : string) :
  count_temperature_tips (all_rules_tips t h description) = 1%nat.
Proof.
  unfold all_rules_tips, temperature_tip.
  destruct (num_gt t (int 30)), (num_lt t (int 10)),
    (contains "rain" (lower description)), (num_gt h (int 80));
    vm_compute; reflexivity.
Qed.

Lemma all_rules_bands (t h : num) (description : string) :
  let tips := all_rules_tips t h description in
  (num_gt t (int 30) = true →
     heat_tip ∈ tips ∧ (frost_tip ∉ tips) ∧ (usual_tip ∉ tips))
  ∧ (num_lt t (int 10) = true →
     frost_tip ∈ tips ∧ (heat_tip ∉ tips) ∧ (usual_tip ∉ tips))
  ∧ (num_gt t (int 30) = false → num_lt t (int 10) = false →
     usual_tip ∈ tips ∧ (heat_tip ∉ tips) ∧ (frost_tip ∉ tips)).
Proof.
  assert (Hcases : ∀ tip rest,
            bool_decide (tip ∈ temperature_tips) = true →
            rest ⊆ [reduce_watering_tip; ventilation_tip] →
            ∀ other, bool_decide (other ∈ temperature_tips) = true →
                     bool_decide (other = tip) = false → other ∉ tip :: rest).
  { intros tip rest _ Hrest other Hother Hne [Heq | Hin]%elem_of_cons.
    - apply bool_decide_eq_false in Hne. contradiction.
    - apply Hrest in Hin. apply bool_decide_eq_true in Hother.
      revert Hin. apply (proj1 (bool_decide_eq_false _)).
      apply list_elem_of_In in Hother.
      destruct Hother as [<- | [<- | [<- | []]]]; vm_compute; reflexivity. }
  assert (Hrest : (if contains "rain" (lower description) then [reduce_watering_tip] else [])
                  ++ (if num_gt h (int 80) then [ventilation_tip] else [])
                  ⊆ [reduce_watering_tip; ventilation_tip]).
  { destruct (contains "rain" (lower description)), (num_gt h (int 80));
      intros x Hx; apply (proj1 (bool_decide_eq_true _));
      apply list_elem_of_In in Hx; simpl in Hx;
      repeat (destruct Hx as [<- | Hx]; [vm_compute; reflexivity |]); destruct Hx. }
  intros tips. subst tips. unfold all_rules_tips, temperature_tip.
  split; [| split].
  - intros Hhot. rewrite Hhot.
    split; [apply list_elem_of_here |].
    split; apply Hcases; solve [reflexivity | exact Hrest].
  - intros Hcold.
    destruct (num_gt t (int 30)) eqn:Hhot; [apply hot_not_cold in Hhot; congruence |].
    rewrite Hcold.
    split; [apply list_elem_of_here |].
    split; apply Hcases; solve [reflexivity | exact Hrest].
  - intros Hhot Hcold. rewrite Hhot, Hcold.
    split; [apply list_elem_of_here |].
    split; apply Hcases; solve [reflexivity | exact Hrest].
Qed.

(** ** The all-rules advisory: [/weather] *)

(** C1: for every reading that the [/weather] handler receives, exactly one of
    the three temperature tips is produced: above 30 the heat tip (and neither
    of the others, in particular not the frost tip), below 10 the frost tip,
    and otherwise the water-as-usual tip. *)
Theorem weather_one_temperature_tip (w : world) (city_arg : option string) (key : string)
    (data temperature humidity : value) (description : string) (t h : num) :
  getenv w "OPENWEATHER_API_KEY" = Some key →
  key ≠ EmptyString →
  http w (HttpGet (WeatherUrl "http" (VStr (default "London" city_arg)) (Some key)))
  = Response 200 (Ok data) →
  carries data temperature humidity (VStr description) →
  as_num temperature = Some t →
  as_num humidity = Some h →
  ∃ tips,
    (run (get_weather w city_arg)).1
    = Ok (Weather temperature (VStr description) humidity tips, 200)
    ∧ count_temperature_tips tips = 1%nat
    ∧ (num_gt t (int 30) = true →
       heat_tip ∈ tips ∧ (frost_tip ∉ tips) ∧ (usual_tip ∉ tips))
    ∧ (num_lt t (int 10) = true →
       frost_tip ∈ tips ∧ (heat_tip ∉ tips) ∧ (usual_tip ∉ tips))
    ∧ (num_gt t (int 30) = false → num_lt t (int 10) = false →
       usual_tip ∈ tips ∧ (heat_tip ∉ tips) ∧ (frost_tip ∉ tips)).
Proof.
  intros Hkey Hne Hhttp Hreading Ht Hh.
  exists (all_rules_tips t h description). split.
  - now rewrite (get_weather_ok w key data temperature humidity description t h
                   Hkey Hne Hreading Ht Hh city_arg Hhttp).
  - split; [apply all_rules_one_temperature_tip | apply all_rules_bands].
Qed.

Lemma weather_one_temperature_tip_witness :
  ∃ tips,
    (run (get_weather
            (answering (Some "k")
               (Response 200 (Ok (weather_payload (VInt 35) (VInt 40) (VStr "clear sky")))))
            (Some "Cairo"))).1
    = Ok (Weather (VInt 35) (VStr "clear sky") (VInt 40) tips, 200)
    ∧ count_temperature_tips tips = 1%nat
    ∧ heat_tip ∈ tips ∧ (frost_tip ∉ tips).
Proof.
  destruct (weather_one_temperature_tip
              (answering (Some "k")
                 (Response 200 (Ok (weather_payload (VInt 35) (VInt 40) (VStr "clear sky")))))
              (Some "Cairo") "k"
              (weather_payload (VInt 35) (VInt 40) (VStr "clear sky"))
              (VInt 35) (VInt 40) "clear sky" (int 35) (int 40))
    as (tips & Hrun & Hone & Hhot & _).
  - reflexivity.
  - discriminate.
  - reflexivity.
  - apply carries_weather_payload.
  - reflexivity.
  - reflexivity.
  - exists tips. destruct (Hhot eq_refl) as (Hheat & Hfrost & _). auto.
Defined.

(** C3: whenever the description has the word rain in it, in any letter case,
    the [/weather] handler includes the reduce-watering tip, whatever the
    temperature and the humidity are. *)
Theorem weather_rain_reduces_watering (w : world) (city_arg : option string) (key : string)
    (data temperature humidity : value) (description : string) (t h : num) :
  getenv w "OPENWEATHER_API_KEY" = Some key →
  key ≠ EmptyString →
  http w (HttpGet (WeatherUrl "http" (VStr (default "London" city_arg)) (Some key)))
  = Response 200 (Ok data) →
  carries data temperature humidity (VStr description) →
  as_num temperature = Some t →
  as_num humidity = Some h →
  mentions_rain description →
  ∃ tips,
    (run (get_weather w city_arg)).1
    = Ok (Weather temperature (VStr description) humidity tips, 200)
    ∧ reduce_watering_tip ∈ tips.
Proof.
  intros Hkey Hne Hhttp Hreading Ht Hh Hrain.
  exists (all_rules_tips t h description). split.
  - now rewrite (get_weather_ok w key data temperature humidity description t h
                   Hkey Hne Hreading Ht Hh city_arg Hhttp).
  - unfold all_rules_tips. rewrite (mentions_rain_contains _ Hrain).
    apply list_elem_of_further, list_elem_of_here.
Qed.

Lemma weather_rain_reduces_watering_witness :
  ∃ tips,
    (run (get_weather
            (answering (Some "k")
               (Response 200
                  (Ok (weather_payload (VFloat (S754_finite true 5 (-1))) (VInt 93)
                         (VStr "Heavy Rain showers")))))
            None)).1
    = Ok (Weather (VFloat (S754_finite true 5 (-1))) (VStr "Heavy Rain showers") (VInt 93)
            tips, 200)
    ∧ reduce_watering_tip ∈ tips.
Proof.
  apply (weather_rain_reduces_watering
           (answering (Some "k")
              (Response 200
                 (Ok (weather_payload (VFloat (S754_finite true 5 (-1))) (VInt 93)
                        (VStr "Heavy Rain showers")))))
           None "k"
           (weather_payload (VFloat (S754_finite true 5 (-1))) (VInt 93)
              (VStr "Heavy Rain showers"))
           (VFloat (S754_finite true 5 (-1))) (VInt 93) "Heavy Rain showers"
           (Fin (-5) (-1)) (int 93)).
  - reflexivity.
  - discriminate.
  - reflexivity.
  - apply carries_weather_payload.
  - reflexivity.
  - reflexivity.
  - exists "Heavy ", "Rain", " showers". split; [reflexivity |].
    exists "R"%char, "a"%char, "i"%char, "n"%char. tauto.
Defined.

(** ** The first-match rule set: [/watering-alert] *)

(** C2: for every reading, the [/watering-alert] handler returns one tip, that
    of the first rule that matches: dry and warm, then very humid, then rain
    in the description, then the default. *)
Theorem watering_alert_first_match (w : world) (city_arg : option string) (key : string)
    (status_code : Z) (data temperature humidity : value) (description : string)
    (t h : num) :
  getenv w "OPENWEATHER_API_KEY" = Some key →
  key ≠ EmptyString →
  http w (HttpGet (WeatherUrl "https" (VStr (default "London" city_arg)) (Some key)))
  = Response status_code (Ok data) →
  carries data temperature humidity (VStr description) →
  as_num temperature = Some t →
  as_num humidity = Some h →
  ∃ tip,
    (run (watering_alert w city_arg)).1
    = Ok (WateringAlert temperature humidity (VStr description) tip, 200)
    ∧ let dry_and_warm := num_lt h (int 50) && num_gt t (int 20) in
      let humid := num_gt h (int 80) in
      let rainy := contains "rain" (lower description) in
      (dry_and_warm = true → tip = water_today_tip)
      ∧ (dry_and_warm = false → humid = true → tip = hold_off_tip)
      ∧ (dry_and_warm = false → humid = false → rainy = true → tip = no_need_tip)
      ∧ (dry_and_warm = false → humid = false → rainy = false → tip = check_soil_tip).
Proof.
  intros Hkey Hne Hhttp Hreading Ht Hh.
  exists (first_match_tip t h description). split.
  - now rewrite (watering_alert_ok w key data temperature humidity description t h
                   Hkey Hne Hreading Ht Hh city_arg status_code Hhttp).
  - unfold first_match_tip. cbv zeta.
    repeat split; intros; repeat match goal with H : _ = _ |- _ => rewrite H end;
      reflexivity.
Qed.

Lemma watering_alert_first_match_witness :
  ∃ tip,
    (run (watering_alert
            (answering (Some "k")
               (Response 200 (Ok (weather_payload (VInt 25) (VInt 40) (VStr "light rain")))))
            (Some "Lyon"))).1
    = Ok (WateringAlert (VInt 25) (VInt 40) (VStr "light rain") tip, 200)
    ∧ tip = water_today_tip.
Proof.
  destruct (watering_alert_first_match
              (answering (Some "k")
                 (Response 200 (Ok (weather_payload (VInt 25) (VInt 40) (VStr "light rain")))))
              (Some "Lyon") "k" 200
              (weather_payload (VInt 25) (VInt 40) (VStr "light rain"))
              (VInt 25) (VInt 40) "light rain" (int 25) (int 40))
    as (tip & Hrun & Hfirst & _).
  - reflexivity.
  - discriminate.
  - reflexivity.
  - apply carries_weather_payload.
  - reflexivity.
  - reflexivity.
  - exists tip. split; [exact Hrun | exact (Hfirst eq_refl)].
Defined.

(** ** The plant-type rules: [/daily-care] *)

(** C4: the care suggestions are the base tip of the plant type (cactus, fern
    or other, after lowercasing), followed by at most one conditional tip:
    for a cactus the reduce-watering warning when the humidity is above 70,
    for a fern the misting reminder when it is below 50, otherwise the
    cold-draft warning when the temperature is below 10.  A cactus at
    humidity 75 gets the base cactus tip and then the warning. *)
Theorem daily_care_suggestions (w : world) (body city data temperature humidity description : value)
    (plant_type : string) (t h : num) :
  get body "city" VNone = Ok city →
  get body "plant_type" VNone = Ok (VStr plant_type) →
  truthy city = true →
  plant_type ≠ EmptyString →
  http w (HttpGet (WeatherUrl "https" city (getenv w "OPENWEATHER_API_KEY")))
  = Response 200 (Ok data) →
  carries data temperature humidity description →
  as_num temperature = Some t →
  as_num humidity = Some h →
  ∃ base extra,
    (run (daily_care w body)).1
    = Ok (DailyCare (VStr plant_type) city temperature humidity description
            (base :: extra), 200)
    ∧ (length extra ≤ 1)%nat
    ∧ (lower plant_type = "cactus" →
       base = cactus_tip
       ∧ extra = (if num_gt h (int 70) then [cactus_humid_tip] else []))
    ∧ (lower plant_type = "fern" →
       base = fern_tip
       ∧ extra = (if num_lt h (int 50) then [fern_mist_tip] else []))
    ∧ (lower plant_type ≠ "cactus" → lower plant_type ≠ "fern" →
       base = other_tip
       ∧ extra = (if num_lt t (int 10) then [cold_draft_tip] else []))
    ∧ (lower plant_type = "cactus" → humidity = VInt 75 →
       base :: extra = [cactus_tip; cactus_humid_tip]).
Proof.
  intros Hcity Hplant Htruthy Hne Hhttp Hreading Ht Hh.
  pose proof (daily_care_ok w body city data temperature humidity description
                plant_type t h Hcity Hplant Htruthy Hne Hhttp Hreading Ht Hh) as Hrun.
  rewrite Hrun. cbn [fst]. unfold plant_rules.
  destruct (String.eqb_spec (lower plant_type) "cactus") as [Hc | Hc].
  - eexists _, _. split; [reflexivity |].
    split; [destruct (num_gt h (int 70)); simpl; lia |].
    repeat split; try congruence.
    intros _ ->. injection Hh as <-. reflexivity.
  - destruct (String.eqb_spec (lower plant_type) "fern") as [Hf | Hf].
    + eexists _, _. split; [reflexivity |].
      split; [destruct (num_lt h (int 50)); simpl; lia |].
      repeat split; try congruence; contradiction.
    + eexists _, _. split; [reflexivity |].
      split; [destruct (num_lt t (int 10)); simpl; lia |].
      repeat split; try congruence; contradiction.
Qed.

Lemma daily_care_suggestions_witness :
  ∃ base extra,
    (run (daily_care
            (answering None
               (Response 200 (Ok (weather_payload (VInt 22) (VInt 75) (VStr "haze")))))
            (care_request (VStr "Tunis") (VStr "cactus")))).1
    = Ok (DailyCare (VStr "cactus") (VStr "Tunis") (VInt 22) (VInt 75) (VStr "haze")
            (base :: extra), 200)
    ∧ base :: extra = [cactus_tip; cactus_humid_tip].
Proof.
  destruct (daily_care_suggestions
              (answering None
                 (Response 200 (Ok (weather_payload (VInt 22) (VInt 75) (VStr "haze")))))
              (care_request (VStr "Tunis") (VStr "cactus"))
              (VStr "Tunis")
              (weather_payload (VInt 22) (VInt 75) (VStr "haze"))
              (VInt 22) (VInt 75) (VStr "haze") "cactus" (int 22) (int 75))
    as (base & extra & Hrun & _ & _ & _ & _ & Hcactus).
  - reflexivity.
  - reflexivity.
  - reflexivity.
  - discriminate.
  - reflexivity.
  - apply carries_weather_payload.
  - reflexivity.
  - reflexivity.
  - exists base, extra. split; [exact Hrun | exact (Hcactus eq_refl eq_refl)].
Defined.

(** ** Failures of the upstream call *)

(** A [try] whose [except Exception] clause answers with a payload never
    lets an exception out. *)
Lemma try_except_answers {A : Type} (body : M A) (answer : exn → A) (log : list event) :
  ∃ a log', try_except body (λ e, mret (answer e)) log = (Ok a, log').
Proof.
  unfold try_except. destruct (body log) as [[a | e] log']; eauto.
Qed.

Lemma predict_never_raises (w : world) (image_file : option upload) (log : list event) :
  ∃ r log', predict w image_file log = (Ok r, log').
Proof.
  unfold predict. destruct image_file; [apply try_except_answers | eauto].
Qed.

Lemma watering_alert_never_raises (w : world) (city_arg : option string) (log : list event) :
  ∃ r log', watering_alert w city_arg log = (Ok r, log').
Proof.
  unfold watering_alert.
  destruct (not_str _); [eauto | apply try_except_answers].
Qed.

Lemma get_weather_never_raises (w : world) (city_arg : option string) (log : list event) :
  ∃ r log', get_weather w city_arg log = (Ok r, log').
Proof.
  unfold get_weather.
  destruct (not_str _); [eauto | apply try_except_answers].
Qed.

(** When the call itself raises, the three handlers that guard it report the
    exception with their generic message. *)
Lemma predict_reports_failure (w : world) (f : upload) (e : exn) :
  http w (HttpPost API_URL (HEADERS w) (content f)) = Fails e →
  (run (predict w (Some f))).1 = Ok (ErrorDetails "Prediction failed" e, 200).
Proof. intros H. unfold predict. unfold_monad. now rewrite H. Qed.

Lemma watering_alert_reports_failure (w : world) (city_arg : option string) (key : string)
    (e : exn) :
  getenv w "OPENWEATHER_API_KEY" = Some key →
  key ≠ EmptyString →
  http w (HttpGet (WeatherUrl "https" (VStr (default "London" city_arg)) (Some key)))
  = Fails e →
  (run (watering_alert w city_arg)).1 = Ok (ErrorDetails "Failed to get weather data" e, 200).
Proof.
  intros Hkey Hne H. unfold watering_alert. rewrite Hkey, (not_str_some key Hne).
  unfold_monad. now rewrite H.
Qed.

Lemma get_weather_reports_failure (w : world) (city_arg : option string) (key : string)
    (e : exn) :
  getenv w "OPENWEATHER_API_KEY" = Some key →
  key ≠ EmptyString →
  http w (HttpGet (WeatherUrl "http" (VStr (default "London" city_arg)) (Some key)))
  = Fails e →
  (run (get_weather w city_arg)).1 = Ok (ErrorDetails "Weather fetch failed" e, 200).
Proof.
  intros Hkey Hne H. unfold get_weather, OPENWEATHER_API_KEY.
  rewrite Hkey, (not_str_some key Hne). unfold_monad. now rewrite H.
Qed.

(** [daily_care] has no such guard: whatever the call raises leaves the
    handler. *)
Lemma daily_care_lets_failure_out (w : world) (body city : value) (plant_type : string)
    (e : exn) :
  get body "city" VNone = Ok city →
  get body "plant_type" VNone = Ok (VStr plant_type) →
  truthy city = true →
  plant_type ≠ EmptyString →
  http w (HttpGet (WeatherUrl "https" city (getenv w "OPENWEATHER_API_KEY"))) = Fails e →
  (run (daily_care w body)).1 = Raise e.
Proof.
  intros Hcity Hplant Htruthy Hne Hhttp. unfold daily_care. unfold_monad.
  rewrite Hcity, Hplant, Htruthy. simpl.
  destruct (String.eqb_spec plant_type EmptyString) as [|_]; [contradiction |]. simpl.
  now rewrite Hhttp.
Qed.

(** C5: [daily_care] calls the weather provider outside any [try]: when the
    call raises, when the body of the answer is not JSON, and when a 200
    answer lacks the fields of a reading, the exception leaves the handler
    instead of being reported as an error payload. *)
Theorem daily_care_upstream_failure_propagates :
  let request := care_request (VStr "Paris") (VStr "fern") in
  let called := [HttpGet (WeatherUrl "https" (VStr "Paris") (Some "k"))] in
  run (daily_care (answering (Some "k") (Fails (RequestException "connection refused")))
         request)
  = (Raise (RequestException "connection refused"), called)
  ∧ run (daily_care
           (answering (Some "k") (Response 502 (Raise (JSONDecodeError "Expecting value"))))
           request)
    = (Raise (JSONDecodeError "Expecting value"), called)
  ∧ run (daily_care (answering (Some "k") (Response 200 (Ok (VDict [])))) request)
    = (Raise (KeyError (VStr "main")), called).
Proof. repeat split. Qed.

(** ** Missing inputs *)

(** The empty string is no key of the catalog, neither as an environment nor
    as a preference. *)
Lemma catalog_lookup_no_environment (preference : string) :
  catalog_lookup EmptyString preference = [].
Proof.
  unfold catalog_lookup.
  replace (plant_database !! EmptyString) with (@None (gmap string (list string)))
    by (vm_compute; reflexivity).
  simpl. now rewrite lookup_empty.
Qed.

Lemma catalog_lookup_no_preference (environment : string) :
  catalog_lookup environment EmptyString = [].
Proof.
  unfold catalog_lookup, plant_database.
  destruct (decide (environment = "low light")) as [-> | H1];
    [| destruct (decide (environment = "bright light")) as [-> | H2];
       [| destruct (decide (environment = "humid")) as [-> | H3]]].
  - vm_compute. reflexivity.
  - vm_compute. reflexivity.
  - vm_compute. reflexivity.
  - rewrite !lookup_insert_ne, lookup_singleton_ne by congruence.
    simpl. now rewrite lookup_empty.
Qed.

(** [/plant-selector] has no required input: with both fields missing it
    answers with an empty recommendation, which is not an error payload. *)
Lemma plant_selector_missing_input_is_no_error :
  ¬ (∀ fields : list (string * value),
       assoc "environment" fields = None ∨ assoc "preference" fields = None →
       ∃ p status,
         run (plant_selector (VDict fields)) = (Ok (p, status), [])
         ∧ is_error p = true).
Proof.
  intros H. destruct (H [] (or_introl eq_refl)) as (p & status & Hrun & Herror).
  vm_compute in Hrun. injection Hrun as <- _. discriminate Herror.
Qed.

(** C6, as the handlers have it: [predict] without an image, [daily_care]
    with a JSON object that lacks the city or the plant type, and
    [plant_journal] without a note answer with an error payload and do
    nothing else: nothing is called upstream and nothing is written.
    [plant_selector] requires nothing: when the environment or the preference
    is missing, and the other field is a string or missing too, the missing
    one counts as the empty string and the answer is a normal one with an
    empty recommendation. *)
Theorem missing_required_input_fails_fast (w : world) :
  run (predict w None) = (Ok (Error (VStr "No image file provided"), 200), [])
  ∧ (∀ fields : list (string * value),
       assoc "city" fields = None ∨ assoc "plant_type" fields = None →
       run (daily_care w (VDict fields))
       = (Ok (Error (VStr "City and plant type are required."), 200), []))
  ∧ (∀ image_file : option upload,
       run (plant_journal w None image_file)
       = (Ok (Error (VStr "Note text is required"), 400), []))
  ∧ (∀ fields : list (string * value),
       assoc "environment" fields = None →
       assoc "preference" fields = None
       ∨ (∃ text, assoc "preference" fields = Some (VStr text)) →
       ∃ echoed_preference,
         run (plant_selector (VDict fields))
         = (Ok (PlantSelector EmptyString echoed_preference [], 200), []))
  ∧ (∀ fields : list (string * value),
       assoc "preference" fields = None →
       assoc "environment" fields = None
       ∨ (∃ text, assoc "environment" fields = Some (VStr text)) →
       ∃ echoed_environment,
         run (plant_selector (VDict fields))
         = (Ok (PlantSelector echoed_environment EmptyString [], 200), [])).
Proof.
  split; [reflexivity | split; [| split; [reflexivity | split]]].
  - intros fields Hmissing. unfold daily_care. unfold_monad. simpl.
    destruct Hmissing as [-> | ->]; simpl; [reflexivity |].
    now rewrite orb_true_r.
  - intros fields Henv Hpref. unfold plant_selector, plant_selector_with. unfold_monad.
    simpl. rewrite Henv. simpl.
    destruct Hpref as [-> | (text & ->)]; simpl; eexists;
      now rewrite catalog_lookup_no_environment.
  - intros fields Hpref Henv. unfold plant_selector, plant_selector_with. unfold_monad.
    simpl. rewrite Hpref.
    destruct Henv as [-> | (text & ->)]; simpl; eexists;
      now rewrite catalog_lookup_no_preference.
Qed.

Lemma missing_required_input_fails_fast_witness :
  run (daily_care (answering (Some "k") (Fails (RequestException "unreachable")))
         (VDict [("city", VStr "Oslo")]))
  = (Ok (Error (VStr "City and plant type are required."), 200), [])
  ∧ (∃ echoed_preference,
       run (plant_selector (VDict [("preference", VStr "Tropical")]))
       = (Ok (PlantSelector EmptyString echoed_preference [], 200), []))
  ∧ (∃ echoed_environment,
       run (plant_selector (VDict [("environment", VStr "Humid")]))
       = (Ok (PlantSelector echoed_environment EmptyString [], 200), [])).
Proof.
  destruct (missing_required_input_fails_fast
              (answering (Some "k") (Fails (RequestException "unreachable"))))
    as (_ & Hcare & _ & Henvironment & Hpreference).
  split; [| split].
  - apply Hcare. right. reflexivity.
  - apply Henvironment; [reflexivity |]. right. exists "Tropical". reflexivity.
  - apply Hpreference; [reflexivity |]. right. exists "Humid". reflexivity.
Defined.

(** The same holds when the field is there but empty or [null]. *)
Lemma daily_care_empty_input_fails_fast (w : world) (fields : list (string * value))
    (city plant_type : value) :
  get (VDict fields) "city" VNone = Ok city →
  get (VDict fields) "plant_type" VNone = Ok plant_type →
  truthy city = false ∨ truthy plant_type = false →
  run (daily_care w (VDict fields))
  = (Ok (Error (VStr "City and plant type are required."), 200), []).
Proof.
  intros Hcity Hplant Hfalsy. unfold daily_care. unfold_monad.
  rewrite Hcity, Hplant.
  destruct Hfalsy as [-> | ->]; simpl; [reflexivity | now rewrite orb_true_r].
Qed.

(** ** The journal: [/plant-journal] *)

(** C9: without a note, or with an empty one, [plant_journal] answers with an
    error (status 400) and has no effect on the filesystem: the log of the
    request holds no [MakeDirs], no [WriteFile] and no [SaveUpload]. *)
Theorem plant_journal_without_note (w : world) (note : option string)
    (image_file : option upload) :
  note = None ∨ note = Some EmptyString →
  run (plant_journal w note image_file)
  = (Ok (Error (VStr "Note text is required"), 400), []).
Proof. intros [-> | ->]; reflexivity. Qed.

Lemma plant_journal_without_note_witness :
  run (plant_journal (answering None (Fails IndexError)) (Some EmptyString)
         (Some {| filename := "leaf.png"; content := "PNG" |}))
  = (Ok (Error (VStr "Note text is required"), 400), []).
Proof.
  apply (plant_journal_without_note (answering None (Fails IndexError))
           (Some EmptyString) (Some {| filename := "leaf.png"; content := "PNG" |})).
  right. reflexivity.
Defined.

(** With a note, the directory is made first and the note written into it. *)
Lemma plant_journal_with_note (w : world) (note : string) :
  note ≠ EmptyString →
  io_error w = (λ _, None) →
  run (plant_journal w (Some note) None)
  = (Ok (JournalEntry "Journal entry saved successfully" (now w) false, 200),
     [MakeDirs ("journal_entries/" +:+ now w);
      WriteFile (("journal_entries/" +:+ now w) +:+ "/note.txt") note]).
Proof.
  intros Hne Hio. unfold plant_journal. rewrite (not_str_some note Hne).
  unfold_monad. rewrite Hio. reflexivity.
Qed.

(** ** The catalog: [/plant-selector] *)

Lemma lower_char_idempotent (c : ascii) : lower_char (lower_char c) = lower_char c.
Proof. destruct c as [[] [] [] [] [] [] [] []]; reflexivity. Qed.

Lemma lower_idempotent (s : string) : lower (lower s) = lower s.
Proof.
  induction s as [|c s IH]; simpl; [reflexivity |].
  now rewrite lower_char_idempotent, IH.
Qed.

Lemma plant_selector_ok (environment preference : string) :
  run (plant_selector (selector_request environment preference))
  = (Ok (PlantSelector (lower environment) (lower preference)
           (catalog_lookup (lower environment) (lower preference)), 200),
     []).
Proof. reflexivity. Qed.

(** C7: the lookup does not depend on the letter case of the request: a
    request is answered as the request with both fields lowercased is.  Low
    light with low maintenance, in capitals, gives the snake plant, the ZZ
    plant and the pothos; humid with tropical gives the fern and the
    calathea. *)
Theorem plant_selector_case_insensitive :
  (∀ environment preference : string,
     run (plant_selector (selector_request environment preference))
     = run (plant_selector (selector_request (lower environment) (lower preference))))
  ∧ run (plant_selector (selector_request "LOW LIGHT" "low maintenance"))
    = (Ok (PlantSelector "low light" "low maintenance"
             ["Snake Plant"; "ZZ Plant"; "Pothos"], 200), [])
  ∧ run (plant_selector (selector_request "LOW LIGHT" "Low Maintenance"))
    = (Ok (PlantSelector "low light" "low maintenance"
             ["Snake Plant"; "ZZ Plant"; "Pothos"], 200), [])
  ∧ run (plant_selector (selector_request "humid" "tropical"))
    = (Ok (PlantSelector "humid" "tropical" ["Fern"; "Calathea"], 200), []).
Proof.
  split; [| repeat split; vm_compute; reflexivity].
  intros environment preference.
  now rewrite !plant_selector_ok, !lower_idempotent.
Qed.

(** C8: when the environment is not in the catalog, or the preference is not
    listed under it, the lookup gives the empty list, and every request that
    lowercases to that pair is answered, without raising, with an empty
    recommendation. *)
Theorem catalog_lookup_absent (environment preference : string) :
  plant_database !! environment = None
  ∨ (∃ listed : gmap string (list string),
       plant_database !! environment = Some listed ∧ listed !! preference = None) →
  catalog_lookup environment preference = []
  ∧ (∀ e p : string,
       lower e = environment → lower p = preference →
       ∃ echoed_environment echoed_preference,
         run (plant_selector (selector_request e p))
         = (Ok (PlantSelector echoed_environment echoed_preference [], 200), [])).
Proof.
  intros Habsent.
  assert (Hempty : catalog_lookup environment preference = []).
  { unfold catalog_lookup.
    destruct Habsent as [-> | (listed & -> & Hpref)]; simpl.
    - now rewrite lookup_empty.
    - now rewrite Hpref. }
  split; [exact Hempty |].
  intros e p He Hp. exists environment, preference.
  now rewrite plant_selector_ok, He, Hp, Hempty.
Qed.

Lemma catalog_lookup_absent_witness :
  catalog_lookup "humid" "low maintenance" = []
  ∧ ∃ echoed_environment echoed_preference,
      run (plant_selector (selector_request "Desert" "Tropical"))
      = (Ok (PlantSelector echoed_environment echoed_preference [], 200), []).
Proof.
  split.
  - apply (catalog_lookup_absent "humid" "low maintenance").
    right. exists {[ "tropical" := ["Fern"; "Calathea"];
                     "colorful" := ["Croton"; "Bromeliad"] ]}.
    split; vm_compute; reflexivity.
  - apply (catalog_lookup_absent "desert" "tropical"); [| reflexivity | reflexivity].
    left. vm_compute. reflexivity.
Defined.

(** C10: the environment and the preference echoed by [plant_selector] are
    what [.lower()] makes of the inputs, not the inputs as they were written,
    and the empty string for an absent one.  This holds whatever the case
    mapping [lower_fn] behind [str.lower()] is, as long as it keeps the empty
    string, which the one of Python does. *)
Theorem plant_selector_echoes_lowercase (lower_fn : string → string)
    (fields : list (string * value)) (environment preference : string) :
  lower_fn EmptyString = EmptyString →
  supplied fields "environment" environment →
  supplied fields "preference" preference →
  ∃ recommended,
    run (plant_selector_with lower_fn (VDict fields))
    = (Ok (PlantSelector (lower_fn environment) (lower_fn preference) recommended, 200), [])
    ∧ (assoc "environment" fields = None → lower_fn environment = EmptyString)
    ∧ (assoc "preference" fields = None → lower_fn preference = EmptyString).
Proof.
  intros Hempty He Hp.
  exists (catalog_lookup (lower_fn environment) (lower_fn preference)).
  split.
  - unfold plant_selector_with. unfold_monad. simpl.
    destruct He as [-> | [-> ->]], Hp as [-> | [-> ->]]; reflexivity.
  - split; intros Habsent.
    + destruct He as [He | [_ ->]]; [congruence | exact Hempty].
    + destruct Hp as [Hp | [_ ->]]; [congruence | exact Hempty].
Qed.

Lemma plant_selector_echoes_lowercase_witness :
  ∃ recommended,
    run (plant_selector_with lower (VDict [("environment", VStr "Bright Light")]))
    = (Ok (PlantSelector "bright light" EmptyString recommended, 200), []).
Proof.
  destruct (plant_selector_echoes_lowercase lower [("environment", VStr "Bright Light")]
              "Bright Light" EmptyString) as (recommended & Hrun & _).
  - reflexivity.
  - left. reflexivity.
  - right. split; reflexivity.
  - exists recommended. exact Hrun.
Defined.

(** ** Reasoning about a handler step by step *)

Section Postconditions.

Context {A B : Type}.

Lemma returns_mret (P : A → Prop) (a : A) : P a → returns P (mret a).
Proof. intros H log a' log' [= <- _]. exact H. Qed.

Lemma returns_lift (P : A → Prop) (r : res A) :
  (∀ a, r = Ok a → P a) → returns P (lift r).
Proof. intros H log a log' [= -> _]. now apply H. Qed.

Lemma returns_bind (Q : B → Prop) (m : M A) (f : A → M B) :
  (∀ a, returns Q (f a)) → returns Q (m ≫= f).
Proof.
  intros H log b log'. unfold mbind, M_bind.
  destruct (m log) as [[a | e] l]; [apply H | discriminate].
Qed.

Lemma returns_try_except (P : A → Prop) (body : M A) (handler : exn → M A) :
  returns P body → (∀ e, returns P (handler e)) → returns P (try_except body handler).
Proof.
  intros Hbody Hhandler log a log'. unfold try_except.
  destruct (body log) as [[a' | e] l] eqn:E.
  - intros [= <- _]. exact (Hbody _ _ _ E).
  - apply Hhandler.
Qed.

Lemma silent_mret (a : A) : silent (mret a).
Proof. intros log. reflexivity. Qed.

Lemma silent_lift (r : res A) : silent (lift r).
Proof. intros log. reflexivity. Qed.

Lemma silent_bind (m : M A) (f : A → M B) :
  silent m → (∀ a, silent (f a)) → silent (m ≫= f).
Proof.
  intros Hm Hf log. unfold mbind, M_bind.
  specialize (Hm log). destruct (m log) as [[a | e] l]; simpl in Hm; subst l.
  - apply Hf.
  - reflexivity.
Qed.

Lemma silent_try_except (body : M A) (handler : exn → M A) :
  silent body → (∀ e, silent (handler e)) → silent (try_except body handler).
Proof.
  intros Hbody Hhandler log. unfold try_except.
  specialize (Hbody log). destruct (body log) as [[a | e] l]; simpl in Hbody; subst l.
  - reflexivity.
  - apply Hhandler.
Qed.

End Postconditions.

(** Walks down a handler: one bind, one [if] at a time. *)
Ltac walk_returns :=
  repeat first
    [ apply returns_mret
    | apply returns_bind; intros
    | match goal with
      | |- returns _ (if ?b then _ else _) => destruct b
      | |- returns _ (match ?x with _ => _ end) => destruct x
      | |- returns _ (let _ := _ in _) => cbv zeta
      end ].

Ltac walk_silent :=
  repeat first
    [ apply silent_mret
    | apply silent_lift
    | apply silent_bind; [| intros]
    | match goal with
      | |- silent (if ?b then _ else _) => destruct b
      | |- silent (match ?x with _ => _ end) => destruct x
      | |- silent (let _ := _ in _) => cbv zeta
      end ].

(** ** What the handlers answer in every world *)

Lemma status_of_predict (w : world) (image_file : option upload) :
  returns (λ r : response, r.2 = 200) (predict w image_file).
Proof.
  unfold predict. destruct image_file; [| now apply returns_mret].
  apply returns_try_except; [| intros; now apply returns_mret].
  walk_returns. reflexivity.
Qed.

Lemma status_of_watering_alert (w : world) (city_arg : option string) :
  returns (λ r : response, r.2 = 200) (watering_alert w city_arg).
Proof.
  unfold watering_alert. cbv zeta.
  destruct (not_str _); [now apply returns_mret |].
  apply returns_try_except; [| intros; now apply returns_mret].
  walk_returns. reflexivity.
Qed.

Lemma status_of_get_weather (w : world) (city_arg : option string) :
  returns (λ r : response, r.2 = 200) (get_weather w city_arg).
Proof.
  unfold get_weather. cbv zeta.
  destruct (not_str _); [now apply returns_mret |].
  apply returns_try_except; [| intros; now apply returns_mret].
  walk_returns; reflexivity.
Qed.

Lemma status_of_daily_care (w : world) (data : value) :
  returns (λ r : response, r.2 = 200) (daily_care w data).
Proof. unfold daily_care. walk_returns; reflexivity. Qed.

Lemma status_of_plant_selector (data : value) :
  returns (λ r : response, r.2 = 200) (plant_selector data).
Proof. unfold plant_selector, plant_selector_with. walk_returns. reflexivity. Qed.

(** Every answer has status 200, error payload or not, but for one: the
    journal's answer to a missing note, which has status 400. *)
Theorem answers_have_status_200 (w : world) :
  (∀ image_file, returns (λ r : response, r.2 = 200) (predict w image_file))
  ∧ (∀ city_arg, returns (λ r : response, r.2 = 200) (watering_alert w city_arg))
  ∧ (∀ data, returns (λ r : response, r.2 = 200) (daily_care w data))
  ∧ (∀ city_arg, returns (λ r : response, r.2 = 200) (get_weather w city_arg))
  ∧ (∀ data, returns (λ r : response, r.2 = 200) (plant_selector data))
  ∧ (∀ note image_file,
       returns (λ r : response,
                  if not_str note
                  then r = (Error (VStr "Note text is required"), 400)
                  else r.2 = 200 ∧ is_error r.1 = false)
         (plant_journal w note image_file)).
Proof.
  split; [intros; apply status_of_predict |].
  split; [intros; apply status_of_watering_alert |].
  split; [intros; apply status_of_daily_care |].
  split; [intros; apply status_of_get_weather |].
  split; [intros; apply status_of_plant_selector |].
  intros note image_file. unfold plant_journal.
  destruct (not_str note); [now apply returns_mret |].
  walk_returns. split; reflexivity.
Qed.

(** The three handlers that guard their call never let an exception out:
    in every world, on every input, they answer, and with status 200. *)
Theorem guarded_handlers_never_raise (w : world) (log : list event) :
  (∀ image_file, ∃ p log', predict w image_file log = (Ok (p, 200), log'))
  ∧ (∀ city_arg, ∃ p log', watering_alert w city_arg log = (Ok (p, 200), log'))
  ∧ (∀ city_arg, ∃ p log', get_weather w city_arg log = (Ok (p, 200), log')).
Proof.
  repeat split; intros x.
  - destruct (predict_never_raises w x log) as ([p s] & log' & H).
    pose proof (status_of_predict w x _ _ _ H) as Hs. simpl in Hs. subst s. eauto.
  - destruct (watering_alert_never_raises w x log) as ([p s] & log' & H).
    pose proof (status_of_watering_alert w x _ _ _ H) as Hs. simpl in Hs. subst s. eauto.
  - destruct (get_weather_never_raises w x log) as ([p s] & log' & H).
    pose proof (status_of_get_weather w x _ _ _ H) as Hs. simpl in Hs. subst s. eauto.
Qed.

Lemma returns_bind_with {A B : Type} (P : A → Prop) (Q : B → Prop) (m : M A) (f : A → M B) :
  returns P m → (∀ a, P a → returns Q (f a)) → returns Q (m ≫= f).
Proof.
  intros Hm Hf log b log'. unfold mbind, M_bind.
  destruct (m log) as [[a | e] l] eqn:E; [| discriminate].
  apply Hf. exact (Hm _ _ _ E).
Qed.

(** Whatever the weather provider sends, a tip of [/watering-alert] is one of
    the four tips of the rule set. *)
Theorem watering_alert_tip_is_known (w : world) (city_arg : option string) :
  returns (λ r : response,
             ∀ temp humidity weather tip,
               r.1 = WateringAlert temp humidity weather tip → tip ∈ watering_tips)
    (watering_alert w city_arg).
Proof.
  unfold watering_alert. cbv zeta.
  destruct (not_str _); [apply returns_mret; discriminate |].
  apply returns_try_except; [| intros; apply returns_mret; discriminate].
  do 11 (apply returns_bind; intros).
  apply (returns_bind_with (λ tip : string, tip ∈ watering_tips)).
  - walk_returns; apply (proj1 (bool_decide_eq_true _)); reflexivity.
  - intros tip Htip. apply returns_mret. intros ? ? ? ? [= _ _ _ <-]. exact Htip.
Qed.

(** Whatever the weather provider sends, the tips of [/weather] are one
    temperature tip, then the reduce-watering tip or not, then the
    ventilation tip or not: between one and three tips, in this order. *)
Theorem weather_tips_in_rule_order (w : world) (city_arg : option string) :
  returns (λ r : response,
             ∀ temperature description humidity tips,
               r.1 = Weather temperature description humidity tips →
               ∃ tip rest,
                 tips = tip :: rest
                 ∧ tip ∈ temperature_tips
                 ∧ rest `sublist_of` [reduce_watering_tip; ventilation_tip])
    (get_weather w city_arg).
Proof.
  unfold get_weather. cbv zeta.
  destruct (not_str _); [apply returns_mret; discriminate |].
  apply returns_try_except; [| intros; apply returns_mret; discriminate].
  do 2 (apply returns_bind; intros).
  destruct (negb _).
  { apply returns_bind; intros. apply returns_mret. discriminate. }
  do 8 (apply returns_bind; intros).
  apply (returns_bind_with (λ tips : list string, ∃ tip, tips = [tip] ∧ tip ∈ temperature_tips)).
  - walk_returns; eexists; (split; [reflexivity |]);
      apply (proj1 (bool_decide_eq_true _)); reflexivity.
  - intros tips (tip & -> & Htip).
    do 2 (apply returns_bind; intros). apply returns_mret.
    intros ? ? ? ? [= _ _ _ <-]. exists tip. eexists. split; [reflexivity |].
    split; [exact Htip |].
    repeat match goal with |- context [if ?b then _ else _] => destruct b end; simpl;
      repeat first [apply sublist_nil | apply sublist_skip | apply sublist_cons | reflexivity].
Qed.

(** Whatever the weather provider sends, the suggestions of [/daily-care] are
    one of six lists: the base tip of a plant type alone, or followed by its
    conditional tip. *)
Theorem daily_care_suggestions_are_known (w : world) (data : value) :
  returns (λ r : response,
             ∀ plant city temperature humidity weather suggestions,
               r.1 = DailyCare plant city temperature humidity weather suggestions →
               suggestions ∈ [ [cactus_tip]; [cactus_tip; cactus_humid_tip];
                               [fern_tip]; [fern_tip; fern_mist_tip];
                               [other_tip]; [other_tip; cold_draft_tip] ])
    (daily_care w data).
Proof.
  unfold daily_care. cbv zeta.
  do 2 (apply returns_bind; intros).
  destruct (_ || _); [apply returns_mret; discriminate |].
  do 2 (apply returns_bind; intros).
  destruct (negb _); [apply returns_mret; discriminate |].
  do 8 (apply returns_bind; intros).
  apply (returns_bind_with
           (λ suggestions : list string,
              suggestions ∈ [ [cactus_tip]; [cactus_tip; cactus_humid_tip];
                              [fern_tip]; [fern_tip; fern_mist_tip];
                              [other_tip]; [other_tip; cold_draft_tip] ])).
  - walk_returns;
      match goal with |- context [if ?b then _ else _] => destruct b end;
      apply (proj1 (bool_decide_eq_true _)); reflexivity.
  - intros suggestions Hin. apply returns_mret. intros ? ? ? ? ? ? [= _ _ _ _ _ <-]. exact Hin.
Qed.

(** ** The calls upstream *)

(** A guarded call followed by steps without effect leaves exactly the call
    in the log, whatever the answer is and wherever the steps fail. *)
Lemma guarded_call_once (w : world) {A : Type} (target : url)
    (rest : Z * res value → M A) (handler : exn → M A) :
  (∀ x, silent (rest x)) → (∀ e, silent (handler e)) →
  (run (try_except (requests_get w target ≫= rest) handler)).2 = [HttpGet target].
Proof.
  intros Hrest Hhandler.
  unfold run, try_except, mbind, M_bind, requests_get. simpl.
  destruct (http w (HttpGet target)) as [e | status_code json].
  - apply Hhandler.
  - specialize (Hrest (status_code, json) [HttpGet target]).
    destruct (rest (status_code, json) [HttpGet target]) as [[a | e] l];
      simpl in Hrest; subst l; [reflexivity | apply Hhandler].
Qed.

Lemma unguarded_call_once (w : world) {A : Type} (target : url)
    (rest : Z * res value → M A) (log : list event) :
  (∀ x, silent (rest x)) →
  ((requests_get w target ≫= rest) log).2 = log ++ [HttpGet target].
Proof.
  intros Hrest. unfold mbind, M_bind, requests_get. simpl.
  destruct (http w (HttpGet target)) as [e | status_code json]; [reflexivity |].
  apply Hrest.
Qed.

Lemma bind_lift_ok {A B : Type} (a : A) (f : A → M B) (log : list event) :
  (lift (Ok a) ≫= f) log = f a log.
Proof. reflexivity. Qed.

(** With the key configured, [/watering-alert] and [/weather] call the weather
    provider exactly once per request, whatever it answers: for the city of
    the request, London when there is none, over https for the first and over
    http for the second. *)
Theorem weather_routes_call_once (w : world) (city_arg : option string) (key : string) :
  getenv w "OPENWEATHER_API_KEY" = Some key →
  key ≠ EmptyString →
  (run (watering_alert w city_arg)).2
  = [HttpGet (WeatherUrl "https" (VStr (default "London" city_arg)) (Some key))]
  ∧ (run (get_weather w city_arg)).2
    = [HttpGet (WeatherUrl "http" (VStr (default "London" city_arg)) (Some key))].
Proof.
  intros Hkey Hne. split.
  - unfold watering_alert. rewrite Hkey, (not_str_some key Hne). cbv zeta.
    apply guarded_call_once; intros; walk_silent.
  - unfold get_weather, OPENWEATHER_API_KEY. rewrite Hkey, (not_str_some key Hne). cbv zeta.
    apply guarded_call_once; intros; walk_silent.
Qed.

Lemma weather_routes_call_once_witness :
  (run (watering_alert (answering (Some "k") (Fails (RequestException "timeout"))) None)).2
  = [HttpGet (WeatherUrl "https" (VStr "London") (Some "k"))]
  ∧ (run (get_weather (answering (Some "k") (Response 404 (Ok (VDict []))))
            (Some "Atlantis"))).2
    = [HttpGet (WeatherUrl "http" (VStr "Atlantis") (Some "k"))].
Proof.
  split.
  - apply (weather_routes_call_once
             (answering (Some "k") (Fails (RequestException "timeout"))) None "k");
      [reflexivity | discriminate].
  - apply (weather_routes_call_once
             (answering (Some "k") (Response 404 (Ok (VDict [])))) (Some "Atlantis") "k");
      [reflexivity | discriminate].
Defined.

(** Without the key (unset or empty), both routes answer with their own
    error message and call nothing. *)
Theorem weather_routes_without_key (w : world) (city_arg : option string) :
  not_str (getenv w "OPENWEATHER_API_KEY") = true →
  run (watering_alert w city_arg)
  = (Ok (Error (VStr "Missing OpenWeather API key."), 200), [])
  ∧ run (get_weather w city_arg)
    = (Ok (Error (VStr "OpenWeather API key is missing in .env"), 200), []).
Proof.
  intros Hkey. unfold watering_alert, get_weather, OPENWEATHER_API_KEY.
  rewrite Hkey. split; reflexivity.
Qed.

Lemma weather_routes_without_key_witness :
  run (watering_alert (answering (Some EmptyString) (Fails IndexError)) (Some "Oslo"))
  = (Ok (Error (VStr "Missing OpenWeather API key."), 200), [])
  ∧ run (get_weather (answering None (Fails IndexError)) (Some "Oslo"))
    = (Ok (Error (VStr "OpenWeather API key is missing in .env"), 200), []).
Proof.
  split.
  - apply (weather_routes_without_key (answering (Some EmptyString) (Fails IndexError))).
    reflexivity.
  - apply (weather_routes_without_key (answering None (Fails IndexError))).
    reflexivity.
Defined.

(** [/predict] posts the bytes of the image once, whatever the answer is, and
    does not check its token: an unset token is sent as the text [None]. *)
Theorem predict_posts_image_once (w : world) (f : upload) :
  (run (predict w (Some f))).2
  = [HttpPost API_URL
       ("Bearer " +:+ default "None" (getenv w "HUGGINGFACE_API_TOKEN")) (content f)].
Proof.
  unfold predict, run, try_except, mbind, M_bind, requests_post, HEADERS, format_opt.
  cbv zeta. destruct (http w _) as [e | status_code json]; [reflexivity |].
  unfold lift. cbn [snd].
  destruct json as [body | e]; [| reflexivity].
  destruct (getitem_0 body) as [first | e]; [| reflexivity].
  destruct (getitem first "label"); reflexivity.
Qed.

(** [/daily-care] checks neither the key nor the type of the plant before it
    calls: once the city and the plant type are there, the provider is called
    exactly once, with the key of the environment or [None]. *)
Theorem daily_care_calls_once (w : world) (body city plant_type : value) :
  get body "city" VNone = Ok city →
  get body "plant_type" VNone = Ok plant_type →
  truthy city = true →
  truthy plant_type = true →
  (run (daily_care w body)).2
  = [HttpGet (WeatherUrl "https" city (getenv w "OPENWEATHER_API_KEY"))].
Proof.
  intros Hcity Hplant Htc Htp.
  unfold daily_care, run. cbv zeta.
  rewrite Hcity, bind_lift_ok, Hplant, bind_lift_ok, Htc, Htp. cbn [negb orb].
  apply (unguarded_call_once w _ _ []). intros x. walk_silent.
Qed.

Lemma daily_care_calls_once_witness :
  (run (daily_care (answering None (Fails (RequestException "unreachable")))
          (care_request (VStr "Quito") (VInt 7)))).2
  = [HttpGet (WeatherUrl "https" (VStr "Quito") None)].
Proof.
  apply (daily_care_calls_once (answering None (Fails (RequestException "unreachable")))
           (care_request (VStr "Quito") (VInt 7)) (VStr "Quito") (VInt 7));
    reflexivity.
Defined.

(** ** Answers of the provider that are not a reading *)

(** When the provider answers with another status than 200 and a JSON object,
    [/weather] passes on the provider's own message as the error, or a fixed
    text when the object has none; no details are attached. *)
Theorem get_weather_passes_provider_message (w : world) (city_arg : option string)
    (key : string) (status_code : Z) (fields : list (string * value)) :
  getenv w "OPENWEATHER_API_KEY" = Some key →
  key ≠ EmptyString →
  http w (HttpGet (WeatherUrl "http" (VStr (default "London" city_arg)) (Some key)))
  = Response status_code (Ok (VDict fields)) →
  status_code ≠ 200 →
  (run (get_weather w city_arg)).1
  = Ok (Error (default (VStr "Unable to fetch weather") (assoc "message" fields)), 200).
Proof.
  intros Hkey Hne Hhttp Hstatus.
  unfold get_weather, OPENWEATHER_API_KEY. rewrite Hkey, (not_str_some key Hne).
  unfold_monad. rewrite Hhttp. simpl.
  destruct (Z.eqb_spec status_code 200) as [| _]; [contradiction |]. simpl.
  now destruct (assoc "message" fields).
Qed.

Lemma get_weather_passes_provider_message_witness :
  (run (get_weather
          (answering (Some "k")
             (Response 404 (Ok (VDict [("cod", VStr "404");
                                       ("message", VStr "city not found")]))))
          (Some "Atlantis"))).1
  = Ok (Error (VStr "city not found"), 200).
Proof.
  apply (get_weather_passes_provider_message
           (answering (Some "k")
              (Response 404 (Ok (VDict [("cod", VStr "404");
                                        ("message", VStr "city not found")]))))
           (Some "Atlantis") "k" 404
           [("cod", VStr "404"); ("message", VStr "city not found")]);
    [reflexivity | discriminate | reflexivity | discriminate].
Defined.

(** [/watering-alert] does not look at the status: an answer that is a JSON
    object without the field [main], as the provider's error answers are, is
    reported as a failed fetch with the [KeyError] of that field. *)
Theorem watering_alert_reports_missing_main (w : world) (city_arg : option string)
    (key : string) (status_code : Z) (fields : list (string * value)) :
  getenv w "OPENWEATHER_API_KEY" = Some key →
  key ≠ EmptyString →
  http w (HttpGet (WeatherUrl "https" (VStr (default "London" city_arg)) (Some key)))
  = Response status_code (Ok (VDict fields)) →
  assoc "main" fields = None →
  (run (watering_alert w city_arg)).1
  = Ok (ErrorDetails "Failed to get weather data" (KeyError (VStr "main")), 200).
Proof.
  intros Hkey Hne Hhttp Hmain.
  unfold watering_alert. rewrite Hkey, (not_str_some key Hne).
  unfold_monad. rewrite Hhttp. simpl. now rewrite Hmain.
Qed.

Lemma watering_alert_reports_missing_main_witness :
  (run (watering_alert
          (answering (Some "k")
             (Response 404 (Ok (VDict [("cod", VStr "404");
                                       ("message", VStr "city not found")]))))
          (Some "Atlantis"))).1
  = Ok (ErrorDetails "Failed to get weather data" (KeyError (VStr "main")), 200).
Proof.
  apply (watering_alert_reports_missing_main
           (answering (Some "k")
              (Response 404 (Ok (VDict [("cod", VStr "404");
                                        ("message", VStr "city not found")]))))
           (Some "Atlantis") "k" 404
           [("cod", VStr "404"); ("message", VStr "city not found")]);
    [reflexivity | discriminate | reflexivity | reflexivity].
Defined.

(** [/daily-care] answers any other status than 200 with a fixed error, for
    every JSON body of the answer and before the plant type is looked at. *)
Theorem daily_care_rejects_other_status (w : world) (body city plant_type data : value)
    (status_code : Z) :
  get body "city" VNone = Ok city →
  get body "plant_type" VNone = Ok plant_type →
  truthy city = true →
  truthy plant_type = true →
  http w (HttpGet (WeatherUrl "https" city (getenv w "OPENWEATHER_API_KEY")))
  = Response status_code (Ok data) →
  status_code ≠ 200 →
  (run (daily_care w body)).1 = Ok (Error (VStr "Failed to fetch weather data."), 200).
Proof.
  intros Hcity Hplant Htc Htp Hhttp Hstatus.
  unfold daily_care. unfold_monad. rewrite Hcity, Hplant, Htc, Htp. simpl.
  rewrite Hhttp. simpl.
  now destruct (Z.eqb_spec status_code 200) as [| _]; [contradiction |].
Qed.

Lemma daily_care_rejects_other_status_witness :
  (run (daily_care (answering (Some "k") (Response 401 (Ok VNone)))
          (care_request (VStr "Lima") (VList [VInt 1])))).1
  = Ok (Error (VStr "Failed to fetch weather data."), 200).
Proof.
  apply (daily_care_rejects_other_status (answering (Some "k") (Response 401 (Ok VNone)))
           (care_request (VStr "Lima") (VList [VInt 1])) (VStr "Lima") (VList [VInt 1])
           VNone 401);
    [reflexivity | reflexivity | reflexivity | reflexivity | reflexivity | discriminate].
Defined.

(** ** Readings of the wrong type *)

(** A temperature that is not a number (a JSON string, say) makes [/weather]
    report a failed fetch with a [TypeError], whatever the rest of the
    reading is. *)
Theorem get_weather_rejects_text_temperature (w : world) (city_arg : option string)
    (key : string) (data temperature humidity description : value) :
  getenv w "OPENWEATHER_API_KEY" = Some key →
  key ≠ EmptyString →
  http w (HttpGet (WeatherUrl "http" (VStr (default "London" city_arg)) (Some key)))
  = Response 200 (Ok data) →
  carries data temperature humidity description →
  as_num temperature = None →
  (run (get_weather w city_arg)).1 = Ok (ErrorDetails "Weather fetch failed" TypeError, 200).
Proof.
  intros Hkey Hne Hhttp (main & wl & w0 & Hm & Ht & Hh & Hw & H0 & Hd) Hnum.
  unfold get_weather, OPENWEATHER_API_KEY. rewrite Hkey, (not_str_some key Hne).
  unfold_monad. rewrite Hhttp. simpl.
  now rewrite Hm, Ht, Hw, H0, Hd, Hh, Hnum.
Qed.

Lemma get_weather_rejects_text_temperature_witness :
  (run (get_weather
          (answering (Some "k")
             (Response 200 (Ok (weather_payload (VStr "35") (VInt 40) (VStr "clear sky")))))
          None)).1
  = Ok (ErrorDetails "Weather fetch failed" TypeError, 200).
Proof.
  apply (get_weather_rejects_text_temperature
           (answering (Some "k")
              (Response 200 (Ok (weather_payload (VStr "35") (VInt 40) (VStr "clear sky")))))
           None "k" (weather_payload (VStr "35") (VInt 40) (VStr "clear sky"))
           (VStr "35") (VInt 40) (VStr "clear sky"));
    [reflexivity | discriminate | reflexivity | apply carries_weather_payload | reflexivity].
Defined.

(** A number above [a] is not below [b] when [b <= a]. *)
Lemma above_not_below (t : num) (a b : Z) :
  (b ≤ a)%Z → num_gt t (int a) = true → num_lt t (int b) = false.
Proof.
  intros Hba. unfold num_gt, num_lt, int. destruct t as [| | |m e]; try (simpl; easy).
  unfold num_compare. cbv zeta.
  set (p := 2 ^ (0 - Z.min e 0)). set (x := m * 2 ^ (e - Z.min e 0)).
  assert (0 < p) by (apply Z.pow_pos_nonneg; lia).
  clearbody p x.
  destruct (Z.compare_spec x (a * p)); try discriminate. intros _.
  destruct (Z.compare_spec x (b * p)); try reflexivity. nia.
Qed.

(** The rules of [/watering-alert] are evaluated lazily: when the humidity is
    above 80 the tip is to hold off, and neither the temperature nor the
    description is examined; they are echoed whatever their type is. *)
Theorem watering_alert_humid_skips_checks (w : world) (city_arg : option string)
    (key : string) (status_code : Z) (data temperature humidity description : value)
    (h : num) :
  getenv w "OPENWEATHER_API_KEY" = Some key →
  key ≠ EmptyString →
  http w (HttpGet (WeatherUrl "https" (VStr (default "London" city_arg)) (Some key)))
  = Response status_code (Ok data) →
  carries data temperature humidity description →
  as_num humidity = Some h →
  num_gt h (int 80) = true →
  (run (watering_alert w city_arg)).1
  = Ok (WateringAlert temperature humidity description hold_off_tip, 200).
Proof.
  intros Hkey Hne Hhttp (main & wl & w0 & Hm & Ht & Hh & Hw & H0 & Hd) Hnum Hhumid.
  unfold watering_alert. rewrite Hkey, (not_str_some key Hne).
  unfold_monad. rewrite Hhttp. simpl.
  rewrite Hm, Ht, Hh, Hw, H0, Hd, Hnum.
  fold (int 50). fold (int 80).
  rewrite (above_not_below h 80 50 ltac:(lia) Hhumid), Hhumid. reflexivity.
Qed.

Lemma watering_alert_humid_skips_checks_witness :
  (run (watering_alert
          (answering (Some "k")
             (Response 200 (Ok (weather_payload VNone (VInt 90) (VInt 500)))))
          None)).1
  = Ok (WateringAlert VNone (VInt 90) (VInt 500) hold_off_tip, 200).
Proof.
  apply (watering_alert_humid_skips_checks
           (answering (Some "k")
              (Response 200 (Ok (weather_payload VNone (VInt 90) (VInt 500)))))
           None "k" 200 (weather_payload VNone (VInt 90) (VInt 500))
           VNone (VInt 90) (VInt 500) (int 90));
    [reflexivity | discriminate | reflexivity | apply carries_weather_payload
    | reflexivity | reflexivity].
Defined.

(** ** Request fields of the wrong type *)

(** A plant type that is there but is not a string (a number, a list) passes
    the check for required inputs; the provider is called, and only then does
    [plant_type.lower()] raise, outside any [try]. *)
Theorem daily_care_raises_on_plant_not_text (w : world)
    (body city plant_type data temperature humidity description : value) :
  get body "city" VNone = Ok city →
  get body "plant_type" VNone = Ok plant_type →
  truthy city = true →
  truthy plant_type = true →
  (∀ s, plant_type ≠ VStr s) →
  http w (HttpGet (WeatherUrl "https" city (getenv w "OPENWEATHER_API_KEY")))
  = Response 200 (Ok data) →
  carries data temperature humidity description →
  run (daily_care w body)
  = (Raise AttributeError,
     [HttpGet (WeatherUrl "https" city (getenv w "OPENWEATHER_API_KEY"))]).
Proof.
  intros Hcity Hplant Htc Htp Hnot Hhttp (main & wl & w0 & Hm & Ht & Hh & Hw & H0 & Hd).
  unfold daily_care. unfold_monad. rewrite Hcity, Hplant, Htc, Htp. simpl.
  rewrite Hhttp. simpl. rewrite Hm, Ht, Hh, Hw, H0, Hd.
  destruct plant_type; try reflexivity. now destruct (Hnot s).
Qed.

Lemma daily_care_raises_on_plant_not_text_witness :
  run (daily_care
         (answering (Some "k")
            (Response 200 (Ok (weather_payload (VInt 20) (VInt 60) (VStr "mist")))))
         (care_request (VStr "Lima") (VInt 7)))
  = (Raise AttributeError, [HttpGet (WeatherUrl "https" (VStr "Lima") (Some "k"))]).
Proof.
  apply (daily_care_raises_on_plant_not_text
           (answering (Some "k")
              (Response 200 (Ok (weather_payload (VInt 20) (VInt 60) (VStr "mist")))))
           (care_request (VStr "Lima") (VInt 7)) (VStr "Lima") (VInt 7)
           (weather_payload (VInt 20) (VInt 60) (VStr "mist"))
           (VInt 20) (VInt 60) (VStr "mist"));
    [reflexivity | reflexivity | reflexivity | reflexivity | discriminate | reflexivity
    | apply carries_weather_payload].
Defined.

(** [/plant-selector] defaults a field that is absent, not one that is there
    with another type: a field that is [null], a number, a list or an object
    makes [.lower()] raise, outside any [try] and before any lookup. *)
Theorem plant_selector_raises_on_field_not_text (fields : list (string * value))
    (v : value) :
  assoc "environment" fields = Some v
  ∨ (assoc "environment" fields = None ∧ assoc "preference" fields = Some v)
  ∨ (∃ s, assoc "environment" fields = Some (VStr s) ∧ assoc "preference" fields = Some v) →
  (∀ s, v ≠ VStr s) →
  run (plant_selector (VDict fields)) = (Raise AttributeError, []).
Proof.
  intros Hfield Hnot. unfold plant_selector, plant_selector_with. unfold_monad. simpl.
  destruct Hfield as [-> | [[-> ->] | (s & -> & ->)]]; simpl;
    destruct v; try reflexivity; now destruct (Hnot s0) || now destruct (Hnot s).
Qed.

Lemma plant_selector_raises_on_field_not_text_witness :
  run (plant_selector (VDict [("environment", VStr "humid"); ("preference", VNone)]))
  = (Raise AttributeError, []).
Proof.
  apply (plant_selector_raises_on_field_not_text
           [("environment", VStr "humid"); ("preference", VNone)] VNone).
  - right. right. exists "humid". split; reflexivity.
  - discriminate.
Defined.

(** A body that is not a JSON object has no [.get]: [/daily-care] and
    [/plant-selector] raise before anything else happens. *)
Theorem body_not_object_raises (w : world) (data : value) :
  (∀ fields, data ≠ VDict fields) →
  run (daily_care w data) = (Raise AttributeError, [])
  ∧ run (plant_selector data) = (Raise AttributeError, []).
Proof.
  intros Hnot. destruct data; try (split; reflexivity). now destruct (Hnot d).
Qed.

Lemma body_not_object_raises_witness :
  run (daily_care (answering None (Fails IndexError)) VNone) = (Raise AttributeError, [])
  ∧ run (plant_selector VNone) = (Raise AttributeError, []).
Proof.
  apply (body_not_object_raises (answering None (Fails IndexError)) VNone). discriminate.
Defined.

(** A city or a plant type that is there but empty ([null], the empty
    string, zero, [false], an empty list or object) counts as missing. *)
Lemma daily_care_empty_input_fails_fast_witness :
  run (daily_care (answering (Some "k") (Fails IndexError))
         (VDict [("city", VStr "Oslo"); ("plant_type", VList [])]))
  = (Ok (Error (VStr "City and plant type are required."), 200), []).
Proof.
  apply (daily_care_empty_input_fails_fast (answering (Some "k") (Fails IndexError))
           [("city", VStr "Oslo"); ("plant_type", VList [])] (VStr "Oslo") (VList []));
    [reflexivity | reflexivity | right; reflexivity].
Defined.

(** ** The check for rain *)

Lemma prefix_split (needle hay : string) :
  String.prefix needle hay = true → ∃ rest, hay = needle +:+ rest.
Proof.
  revert hay. induction needle as [|c needle IH]; intros hay H.
  - now exists hay.
  - destruct hay as [|c' hay]; simpl in H; [discriminate H |].
    destruct (ascii_dec c c') as [<- | _]; [| discriminate H].
    destruct (IH hay H) as (rest & ->). now exists rest.
Qed.

Lemma contains_split (needle hay : string) :
  contains needle hay = true → ∃ before rest, hay = before +:+ needle +:+ rest.
Proof.
  induction hay as [|c hay IH]; unfold contains; fold contains; intros H.
  - rewrite orb_false_r in H. destruct (prefix_split _ _ H) as (rest & ->).
    now exists EmptyString, rest.
  - apply orb_true_iff in H as [H | H].
    + destruct (prefix_split _ _ H) as (rest & ->). now exists EmptyString, rest.
    + destruct (IH H) as (before & rest & ->). now exists (String c before), rest.
Qed.

Lemma lower_app_inv (s a b : string) :
  lower s = a +:+ b → ∃ a' b', s = a' +:+ b' ∧ lower a' = a ∧ lower b' = b.
Proof.
  revert s. induction a as [|c a IH]; intros s H; simpl in H.
  - now exists EmptyString, s.
  - destruct s as [|c' s]; [discriminate |]. simpl in H. injection H as Hc Hs.
    destruct (IH s Hs) as (a' & b' & -> & <- & <-).
    exists (String c' a'), b'. simpl. now rewrite Hc.
Qed.

Lemma lower_rain_inv (word : string) : lower word = "rain" → says_rain word.
Proof.
  destruct word as [|c1 [|c2 [|c3 [|c4 [|c5 rest]]]]]; try discriminate.
  simpl. intros [= H1 H2 H3 H4]. exists c1, c2, c3, c4. split; [reflexivity |].
  repeat split.
  - revert H1. destruct c1 as [[] [] [] [] [] [] [] []]; simpl; intros [=]; auto.
  - revert H2. destruct c2 as [[] [] [] [] [] [] [] []]; simpl; intros [=]; auto.
  - revert H3. destruct c3 as [[] [] [] [] [] [] [] []]; simpl; intros [=]; auto.
  - revert H4. destruct c4 as [[] [] [] [] [] [] [] []]; simpl; intros [=]; auto.
Qed.

(** The test of both weather routes, the word rain in the lowered
    description, holds exactly when the description has the four letters in
    a row, each in either case. *)
Theorem rain_check_any_case (description : string) :
  contains "rain" (lower description) = true ↔ mentions_rain description.
Proof.
  split; [| apply mentions_rain_contains].
  intros H. destruct (contains_split _ _ H) as (before & rest & Hsplit).
  destruct (lower_app_inv _ _ _ Hsplit) as (before' & tail & -> & _ & Htail).
  destruct (lower_app_inv _ _ _ Htail) as (word & after & -> & Hword & _).
  exists before', word, after. split; [reflexivity | now apply lower_rain_inv].
Qed.

(** ** The two rule sets on one reading *)

(** On a dry, warm reading whose description mentions rain, the two routes
    disagree: [/watering-alert] says to water today (its rain rule comes
    after the dry-and-warm rule), while [/weather] says to reduce watering. *)
Theorem rule_sets_disagree_on_dry_rain (w : world) (city_arg : option string) (key : string)
    (data temperature humidity : value) (description : string) (t h : num) :
  getenv w "OPENWEATHER_API_KEY" = Some key →
  key ≠ EmptyString →
  http w (HttpGet (WeatherUrl "https" (VStr (default "London" city_arg)) (Some key)))
  = Response 200 (Ok data) →
  http w (HttpGet (WeatherUrl "http" (VStr (default "London" city_arg)) (Some key)))
  = Response 200 (Ok data) →
  carries data temperature humidity (VStr description) →
  as_num temperature = Some t →
  as_num humidity = Some h →
  num_lt h (int 50) = true →
  num_gt t (int 20) = true →
  mentions_rain description →
  (run (watering_alert w city_arg)).1
  = Ok (WateringAlert temperature humidity (VStr description) water_today_tip, 200)
  ∧ ∃ tips,
      (run (get_weather w city_arg)).1
      = Ok (Weather temperature (VStr description) humidity tips, 200)
      ∧ reduce_watering_tip ∈ tips.
Proof.
  intros Hkey Hne Hhttps Hhttp Hreading Ht Hh Hdry Hwarm Hrain. split.
  - rewrite (watering_alert_ok w key data temperature humidity description t h
               Hkey Hne Hreading Ht Hh city_arg 200 Hhttps).
    unfold first_match_tip. now rewrite Hdry, Hwarm.
  - exists (all_rules_tips t h description). split.
    + now rewrite (get_weather_ok w key data temperature humidity description t h
                     Hkey Hne Hreading Ht Hh city_arg Hhttp).
    + unfold all_rules_tips. rewrite (mentions_rain_contains _ Hrain).
      apply list_elem_of_further, list_elem_of_here.
Qed.

Lemma rule_sets_disagree_on_dry_rain_witness :
  (run (watering_alert
          (answering (Some "k")
             (Response 200 (Ok (weather_payload (VInt 25) (VInt 40) (VStr "light rain")))))
          None)).1
  = Ok (WateringAlert (VInt 25) (VInt 40) (VStr "light rain") water_today_tip, 200)
  ∧ ∃ tips,
      (run (get_weather
              (answering (Some "k")
                 (Response 200 (Ok (weather_payload (VInt 25) (VInt 40) (VStr "light rain")))))
              None)).1
      = Ok (Weather (VInt 25) (VStr "light rain") (VInt 40) tips, 200)
      ∧ reduce_watering_tip ∈ tips.
Proof.
  apply (rule_sets_disagree_on_dry_rain
           (answering (Some "k")
              (Response 200 (Ok (weather_payload (VInt 25) (VInt 40) (VStr "light rain")))))
           None "k" (weather_payload (VInt 25) (VInt 40) (VStr "light rain"))
           (VInt 25) (VInt 40) "light rain" (int 25) (int 40));
    try reflexivity.
  - discriminate.
  - apply carries_weather_payload.
  - exists "light ", "rain", EmptyString. split; [reflexivity |].
    exists "r"%char, "a"%char, "i"%char, "n"%char. tauto.
Defined.

(** ** The catalog, pair by pair *)

(** The catalog recommends something for exactly six pairs of keys; for every
    other pair of strings the list is empty.  A preference listed under one
    environment is not listed under the others. *)
Theorem catalog_lookup_listed (environment preference : string) :
  catalog_lookup environment preference ≠ [] ↔ (environment, preference) ∈ listed_pairs.
Proof.
  split.
  - intros Hfound. apply (proj1 (bool_decide_eq_true _)).
    unfold catalog_lookup, plant_database in Hfound.
    destruct (decide (environment = "low light")) as [-> | H1];
      [| destruct (decide (environment = "bright light")) as [-> | H2];
         [| destruct (decide (environment = "humid")) as [-> | H3]]].
    + rewrite lookup_insert_eq in Hfound. simpl in Hfound.
      destruct (decide (preference = "low maintenance")) as [-> | P1]; [reflexivity |].
      destruct (decide (preference = "air purifying")) as [-> | P2]; [reflexivity |].
      rewrite lookup_insert_ne, lookup_singleton_ne in Hfound by congruence.
      now destruct Hfound.
    + rewrite lookup_insert_ne, lookup_insert_eq in Hfound by congruence. simpl in Hfound.
      destruct (decide (preference = "flowering")) as [-> | P1]; [reflexivity |].
      destruct (decide (preference = "low maintenance")) as [-> | P2]; [reflexivity |].
      rewrite lookup_insert_ne, lookup_singleton_ne in Hfound by congruence.
      now destruct Hfound.
    + rewrite !lookup_insert_ne, lookup_singleton_eq in Hfound by congruence.
      simpl in Hfound.
      destruct (decide (preference = "tropical")) as [-> | P1]; [reflexivity |].
      destruct (decide (preference = "colorful")) as [-> | P2]; [reflexivity |].
      rewrite lookup_insert_ne, lookup_singleton_ne in Hfound by congruence.
      now destruct Hfound.
    + rewrite !lookup_insert_ne, lookup_singleton_ne in Hfound by congruence.
      simpl in Hfound. rewrite lookup_empty in Hfound. now destruct Hfound.
  - intros Hin. apply list_elem_of_In in Hin. simpl in Hin.
    repeat (destruct Hin as [[= <- <-] | Hin]; [vm_compute; discriminate |]).
    destruct Hin.
Qed.

(** ** The journal entry *)

(** With a note, and a filesystem that does not fail, [/plant-journal] makes
    the directory of the timestamp, writes the note into it, and then saves
    the image when there is one with a file name; [image_saved] tells whether
    it did.  An upload without a file name is not saved. *)
Theorem plant_journal_saves_entry (w : world) (note : string) (image_file : option upload) :
  note ≠ EmptyString →
  (∀ ev, io_error w ev = None) →
  let entry_folder := "journal_entries/" +:+ now w in
  let saved := from_option upload_truthy false image_file in
  run (plant_journal w (Some note) image_file)
  = (Ok (JournalEntry "Journal entry saved successfully" (now w) saved, 200),
     [MakeDirs entry_folder; WriteFile (entry_folder +:+ "/note.txt") note]
     ++ match image_file with
        | Some f => if upload_truthy f
                    then [SaveUpload (path_join entry_folder (filename f)) f]
                    else []
        | None => []
        end).
Proof.
  intros Hne Hio. cbv zeta. unfold plant_journal. rewrite (not_str_some note Hne).
  unfold_monad. rewrite !Hio.
  destruct image_file as [f |]; [| reflexivity].
  simpl. destruct (upload_truthy f); [| reflexivity].
  now rewrite Hio.
Qed.

Lemma plant_journal_saves_entry_witness :
  run (plant_journal (answering None (Fails IndexError)) (Some "New leaf today")
         (Some {| filename := "leaf.png"; content := "PNG" |}))
  = (Ok (JournalEntry "Journal entry saved successfully" "20240101-120000" true, 200),
     [MakeDirs "journal_entries/20240101-120000";
      WriteFile "journal_entries/20240101-120000/note.txt" "New leaf today";
      SaveUpload "journal_entries/20240101-120000/leaf.png"
        {| filename := "leaf.png"; content := "PNG" |}]).
Proof.
  apply (plant_journal_saves_entry (answering None (Fails IndexError)) "New leaf today"
           (Some {| filename := "leaf.png"; content := "PNG" |}));
    [discriminate | reflexivity].
Defined.

(** The file name of the upload is joined as it is: a name that starts with
    a slash is an absolute path, and the image is saved there, outside the
    directory of the entry. *)
Theorem plant_journal_absolute_file_name (w : world) (note : string) (f : upload) :
  note ≠ EmptyString →
  (∀ ev, io_error w ev = None) →
  String.prefix "/" (filename f) = true →
  (run (plant_journal w (Some note) (Some f))).2
  = [MakeDirs ("journal_entries/" +:+ now w);
     WriteFile (("journal_entries/" +:+ now w) +:+ "/note.txt") note;
     SaveUpload (filename f) f].
Proof.
  intros Hne Hio Habs. unfold plant_journal. rewrite (not_str_some note Hne).
  unfold_monad. rewrite !Hio. simpl.
  assert (Hnamed : upload_truthy f = true).
  { unfold upload_truthy. destruct (filename f); [discriminate Habs | reflexivity]. }
  rewrite Hnamed, ?Hio. unfold path_join. now rewrite Habs.
Qed.

Lemma plant_journal_absolute_file_name_witness :
  (run (plant_journal (answering None (Fails IndexError)) (Some "note")
          (Some {| filename := "/tmp/leaf.png"; content := "PNG" |}))).2
  = [MakeDirs "journal_entries/20240101-120000";
     WriteFile "journal_entries/20240101-120000/note.txt" "note";
     SaveUpload "/tmp/leaf.png" {| filename := "/tmp/leaf.png"; content := "PNG" |}].
Proof.
  apply (plant_journal_absolute_file_name (answering None (Fails IndexError)) "note"
           {| filename := "/tmp/leaf.png"; content := "PNG" |});
    [discriminate | reflexivity | reflexivity].
Defined.

(** Nothing guards the filesystem: when writing the note fails, the
    exception leaves the handler, the directory made for the entry stays,
    and the image is not attempted. *)
Theorem plant_journal_write_failure (w : world) (note : string)
    (image_file : option upload) (e : exn) :
  note ≠ EmptyString →
  let entry_folder := "journal_entries/" +:+ now w in
  io_error w (MakeDirs entry_folder) = None →
  io_error w (WriteFile (entry_folder +:+ "/note.txt") note) = Some e →
  run (plant_journal w (Some note) image_file)
  = (Raise e, [MakeDirs entry_folder; WriteFile (entry_folder +:+ "/note.txt") note]).
Proof.
  intros Hne entry_folder Hmk Hwrite. unfold plant_journal.
  rewrite (not_str_some note Hne). unfold_monad. fold entry_folder.
  rewrite Hmk. simpl. now rewrite Hwrite.
Qed.

Lemma plant_journal_write_failure_witness :
  run (plant_journal
         {| getenv := λ _, None; http := λ _, Fails IndexError;
            io_error := λ ev, match ev with
                              | WriteFile _ _ => Some (OSError "No space left on device")
                              | _ => None
                              end;
            now := "20240101-120000" |}
         (Some "note") (Some {| filename := "leaf.png"; content := "PNG" |}))
  = (Raise (OSError "No space left on device"),
     [MakeDirs "journal_entries/20240101-120000";
      WriteFile "journal_entries/20240101-120000/note.txt" "note"]).
Proof.
  apply (plant_journal_write_failure
           {| getenv := λ _, None; http := λ _, Fails IndexError;
              io_error := λ ev, match ev with
                                | WriteFile _ _ => Some (OSError "No space left on device")
                                | _ => None
                                end;
              now := "20240101-120000" |}
           "note" (Some {| filename := "leaf.png"; content := "PNG" |})
           (OSError "No space left on device"));
    [discriminate | reflexivity | reflexivity].
Defined.

(** ** The prediction *)

(** [/predict] answers with the label of the first item of the list the
    inference API sends, whatever the status and the other items are. *)
Theorem predict_returns_first_label (w : world) (f : upload) (status_code : Z)
    (first : list (string * value)) (others : list value) (label : value) :
  http w (HttpPost API_URL (HEADERS w) (content f))
  = Response status_code (Ok (VList (VDict first :: others))) →
  assoc "label" first = Some label →
  (run (predict w (Some f))).1 = Ok (Prediction label, 200).
Proof.
  intros Hhttp Hlabel. unfold predict. unfold_monad. rewrite Hhttp. simpl.
  now rewrite Hlabel.
Qed.

Lemma predict_returns_first_label_witness :
  (run (predict
          (answering (Some "token")
             (Response 200
                (Ok (VList [VDict [("label", VStr "Tomato with Late Blight");
                                   ("score", VFloat (S754_finite false 7 (-3)))];
                            VDict [("label", VStr "Healthy Tomato Plant");
                                   ("score", VFloat (S754_finite false 1 (-3)))]]))))
          (Some {| filename := "leaf.jpg"; content := "JPEG" |}))).1
  = Ok (Prediction (VStr "Tomato with Late Blight"), 200).
Proof.
  apply (predict_returns_first_label
           (answering (Some "token")
              (Response 200
                 (Ok (VList [VDict [("label", VStr "Tomato with Late Blight");
                                    ("score", VFloat (S754_finite false 7 (-3)))];
                             VDict [("label", VStr "Healthy Tomato Plant");
                                    ("score", VFloat (S754_finite false 1 (-3)))]]))))
           {| filename := "leaf.jpg"; content := "JPEG" |} 200
           [("label", VStr "Tomato with Late Blight");
            ("score", VFloat (S754_finite false 7 (-3)))]
           [VDict [("label", VStr "Healthy Tomato Plant");
                   ("score", VFloat (S754_finite false 1 (-3)))]]
           (VStr "Tomato with Late Blight"));
    reflexivity.
Defined.

(** When the inference API answers with a JSON object instead of a list (its
    error answers are objects), or with an empty list, [/predict] reports a
    failed prediction: with the [KeyError] of the index 0 for an object, with
    an [IndexError] for the empty list. *)
Theorem predict_reports_answer_without_items (w : world) (f : upload) (status_code : Z)
    (body : value) :
  http w (HttpPost API_URL (HEADERS w) (content f)) = Response status_code (Ok body) →
  ((∃ fields, body = VDict fields) →
   (run (predict w (Some f))).1
   = Ok (ErrorDetails "Prediction failed" (KeyError (VInt 0)), 200))
  ∧ (body = VList [] →
     (run (predict w (Some f))).1 = Ok (ErrorDetails "Prediction failed" IndexError, 200)).
Proof.
  intros Hhttp. unfold predict. unfold_monad. rewrite Hhttp.
  split; [intros (fields & ->) | intros ->]; reflexivity.
Qed.

Lemma predict_reports_answer_without_items_witness :
  (run (predict
          (answering None
             (Response 503 (Ok (VDict [("error", VStr "Model is currently loading")]))))
          (Some {| filename := "leaf.jpg"; content := "JPEG" |}))).1
  = Ok (ErrorDetails "Prediction failed" (KeyError (VInt 0)), 200).
Proof.
  apply (predict_reports_answer_without_items
           (answering None
              (Response 503 (Ok (VDict [("error", VStr "Model is currently loading")]))))
           {| filename := "leaf.jpg"; content := "JPEG" |} 503
           (VDict [("error", VStr "Model is currently loading")]));
    [reflexivity | eexists; reflexivity].
Defined.

(** ** Failures of a guarded call *)

(** When the call upstream itself raises, each of the three guarded handlers
    answers with its own generic message and the exception as details. *)
Theorem guarded_handlers_report_call_failure (w : world) (city_arg : option string)
    (f : upload) (key : string) (e : exn) :
  getenv w "OPENWEATHER_API_KEY" = Some key →
  key ≠ EmptyString →
  (∀ ev, http w ev = Fails e) →
  (run (predict w (Some f))).1 = Ok (ErrorDetails "Prediction failed" e, 200)
  ∧ (run (watering_alert w city_arg)).1
    = Ok (ErrorDetails "Failed to get weather data" e, 200)
  ∧ (run (get_weather w city_arg)).1 = Ok (ErrorDetails "Weather fetch failed" e, 200).
Proof.
  intros Hkey Hne Hhttp. split; [| split].
  - apply predict_reports_failure, Hhttp.
  - apply (watering_alert_reports_failure w city_arg key e Hkey Hne), Hhttp.
  - apply (get_weather_reports_failure w city_arg key e Hkey Hne), Hhttp.
Qed.

Lemma guarded_handlers_report_call_failure_witness :
  (run (predict (answering (Some "k") (Fails (RequestException "connection refused")))
          (Some {| filename := "leaf.jpg"; content := "JPEG" |}))).1
  = Ok (ErrorDetails "Prediction failed" (RequestException "connection refused"), 200)
  ∧ (run (watering_alert (answering (Some "k") (Fails (RequestException "connection refused")))
            None)).1
    = Ok (ErrorDetails "Failed to get weather data" (RequestException "connection refused"),
          200)
  ∧ (run (get_weather (answering (Some "k") (Fails (RequestException "connection refused")))
            None)).1
    = Ok (ErrorDetails "Weather fetch failed" (RequestException "connection refused"), 200).
Proof.
  apply (guarded_handlers_report_call_failure
           (answering (Some "k") (Fails (RequestException "connection refused")))
           None {| filename := "leaf.jpg"; content := "JPEG" |} "k"
           (RequestException "connection refused"));
    [reflexivity | discriminate | reflexivity].
Defined.
